(** * IEC 60870-5-104 terminal client: point registry and command dispatch

    A shallow embedding of [iec_client/client.go] (the [IEC104Client]), of the
    point types of package [iec_client], of [config/config.go] and of the two
    command dialogs of the terminal UI, with the properties of the point
    registry, the command dispatcher, the ingestion handler, the connection
    manager and the interrogation scheduler.

    The wire protocol library (packages [cs104] and [asdu] of go-iecp5) is not
    part of the program.  It appears here only at its boundary: every call the
    client makes into it is recorded in a trace, and what the library answers
    (an [error] or [nil]) is read from an environment record [Env]. *)

From Stdlib Require Import ZArith String List Lia.
From Stdlib Require Import Floats.SpecFloat.
From stdpp Require Import gmap strings pretty.

Local Open Scope Z_scope.

(* ===================================================================== *)
(** ** Go integers *)
(* ===================================================================== *)

(** Go's [int] and [uint] are taken at 64 bits.  Values are kept as [Z] and
    every conversion and addition writes its wrap-around out. *)
Module GoInt.

Definition intSize : Z := 64.

Definition MinInt : Z := - 2 ^ (intSize - 1).
Definition MaxInt : Z := 2 ^ (intSize - 1) - 1.

  (** Two's complement reduction to [int]. *)
Definition wrap (z : Z) : Z :=
    (z + 2 ^ (intSize - 1)) mod 2 ^ intSize - 2 ^ (intSize - 1).

Definition is_int (z : Z) : Prop := MinInt <= z <= MaxInt.

  (** [a + b] on [int]. *)
Definition add (a b : Z) : Z := wrap (a + b).

  (** [a * b] and [a - b] on [int]. *)
Definition mul (a b : Z) : Z := wrap (a * b).
Definition sub (a b : Z) : Z := wrap (a - b).

  (** [uint(x)] for [x : int]. *)
Definition to_uint (z : Z) : Z := z mod 2 ^ intSize.

  (** [int(x)] for [x : uint]. *)
Definition of_uint (u : Z) : Z := wrap u.

  (** [uint16(x)] for [x : int]. *)
Definition to_uint16 (z : Z) : Z := z mod 2 ^ 16.

End GoInt.

(* ===================================================================== *)
(** ** Go floating point *)
(* ===================================================================== *)

(** [float64] and [float32] values are IEEE 754 binary64 and binary32
    numbers, written as [spec_float]; the conversions round to nearest,
    ties to even, as Go's numeric conversions do. *)
Module GoFloat.

Definition float64 : Type := spec_float.
Definition float32 : Type := spec_float.

Definition prec64 : Z := 53.
Definition emax64 : Z := 1024.
Definition prec32 : Z := 24.
Definition emax32 : Z := 128.

  (** [float32(x)] for [x : float64]: the narrowing conversion. *)
Definition to_float32 (x : float64) : float32 :=
    match x with
    | S754_finite s m e => binary_round prec32 emax32 s m e
    | _ => x
    end.

  (** [float64(x)] for [x : float32]: exact. *)
Definition of_float32 (x : float32) : float64 :=
    match x with
    | S754_finite s m e => binary_round prec64 emax64 s m e
    | _ => x
    end.

  (** [float64(x)] for [x : int16] (and for [asdu.Normalize], an [int16]). *)
Definition of_int16 (z : Z) : float64 :=
    binary_normalize prec64 emax64 z 0 false.

End GoFloat.

(* ===================================================================== *)
(** ** Package time *)
(* ===================================================================== *)

Module time.

  (** [time.Duration]: nanoseconds. *)
Definition Duration : Type := Z.

Definition Nanosecond : Duration := 1.
Definition Microsecond : Duration := 1000 * Nanosecond.
Definition Millisecond : Duration := 1000 * Microsecond.
Definition Second : Duration := 1000 * Millisecond.

  (** [time.Time]: an instant; the zero [Time] is [0]. *)
Definition Time : Type := Z.
Definition zeroTime : Time := 0.

End time.

(* ===================================================================== *)
(** ** Errors *)
(* ===================================================================== *)

(** A Go [error] built by [fmt.Errorf]: its message. *)
Inductive error : Type :=
| errorString (msg : string).

Definition Error (e : error) : string :=
  match e with errorString s => s end.

#[global] Instance error_eq_dec : EqDecision error.
Proof. solve_decision. Defined.

(** [fmt.Errorf(prefix + "%v", err)]. *)
Definition Errorf_v (prefix : string) (err : error) : error :=
  errorString (prefix +:+ Error err).

(** [var ErrorNoConnection = fmt.Errorf("no connection to server")] *)
Definition ErrorNoConnection : error := errorString "no connection to server".

(** [fmt.Sprintf("%s:%d", host, port)] *)
Definition Sprintf_s_d (host : string) (port : Z) : string :=
  host +:+ ":" +:+ pretty port.

(* ===================================================================== *)
(** ** Package asdu: the types the client exchanges with the transport *)
(* ===================================================================== *)

Module asdu.

  (** [type TypeID uint8], with the type identifications the client names
      (their values are those of IEC 60870-5-101, 7.2.1). *)
Definition TypeID : Type := Z.
Definition M_SP_NA_1 : TypeID := 1.
Definition M_ME_NA_1 : TypeID := 9.
Definition M_ME_NB_1 : TypeID := 11.
Definition M_ME_NC_1 : TypeID := 13.
Definition M_ME_ND_1 : TypeID := 21.
Definition C_SC_NA_1 : TypeID := 45.
Definition C_SE_NC_1 : TypeID := 50.

  (** [type Cause byte] *)
Definition Cause : Type := Z.
Definition Activation : Cause := 6.

  (** [type CommonAddr uint16], [type InfoObjAddr uint] *)
Definition CommonAddr : Type := Z.
Definition InfoObjAddr : Type := Z.

  (** [asdu.CommonAddr(x)] and [asdu.InfoObjAddr(x)] for [x : int]. *)
Definition CommonAddr_of_int (x : Z) : CommonAddr := GoInt.to_uint16 x.
Definition InfoObjAddr_of_int (x : Z) : InfoObjAddr := GoInt.to_uint x.

  (** [type QualifierOfInterrogation byte] *)
Definition QualifierOfInterrogation : Type := Z.
Definition QOIStation : QualifierOfInterrogation := 20.

Module CauseOfTransmission.
Record t : Type := mk { IsTest : bool; IsNegative : bool; Cause : asdu.Cause }.
End CauseOfTransmission.

Module QualifierOfCommand.
Record t : Type := mk { Qual : Z; InSelect : bool }.
End QualifierOfCommand.

Module QualifierOfSetpointCmd.
Record t : Type := mk { Qual : Z; InSelect : bool }.
End QualifierOfSetpointCmd.

Module SingleCommandInfo.
Record t : Type := mk
      { Ioa : InfoObjAddr; Value : bool; Qoc : QualifierOfCommand.t;
        Time : time.Time }.
End SingleCommandInfo.

Module SetpointCommandFloatInfo.
Record t : Type := mk
      { Ioa : InfoObjAddr; Value : GoFloat.float32;
        Qos : QualifierOfSetpointCmd.t; Time : time.Time }.
End SetpointCommandFloatInfo.

  (** The per-point records the decoder hands out.  [Qds] is the quality
      descriptor byte, which the client never reads. *)
Module MeasuredValueFloatInfo.
Record t : Type := mk
      { Ioa : InfoObjAddr; Value : GoFloat.float32; Qds : Z; Time : time.Time }.
End MeasuredValueFloatInfo.

  (** [Value] is an [asdu.Normalize], an [int16]. *)
Module MeasuredValueNormalInfo.
Record t : Type := mk
      { Ioa : InfoObjAddr; Value : Z; Qds : Z; Time : time.Time }.
End MeasuredValueNormalInfo.

  (** [Value] is an [int16]. *)
Module MeasuredValueScaledInfo.
Record t : Type := mk
      { Ioa : InfoObjAddr; Value : Z; Qds : Z; Time : time.Time }.
End MeasuredValueScaledInfo.

Module SinglePointInfo.
Record t : Type := mk
      { Ioa : InfoObjAddr; Value : bool; Qds : Z; Time : time.Time }.
End SinglePointInfo.

  (** A decoded inbound message.  The client reads its type identification,
      its common address and, through the decoder's four getters, its
      points; the getters are kept as observations of the message. *)
Module ASDU.
Record t : Type := mk
      { Type_ : TypeID;
        CommonAddr : asdu.CommonAddr;
        GetMeasuredValueFloat : list MeasuredValueFloatInfo.t;
        GetMeasuredValueNormal : list MeasuredValueNormalInfo.t;
        GetSinglePoint : list SinglePointInfo.t;
        GetMeasuredValueScaled : list MeasuredValueScaledInfo.t }.
End ASDU.

End asdu.

(* ===================================================================== *)
(** ** Package cs104: the session object, at its boundary *)
(* ===================================================================== *)

Module cs104.

  (** The fields of [cs104.ClientOption] the client sets. *)
Module ClientOption.
Record t : Type := mk
      { autoReconnect : bool;
        reconnectInterval : time.Duration;
        server : option string }.
End ClientOption.

  (** A [cs104.Client], as far as the client program drives it. *)
Module Client.
Record t : Type := mk
      { option_ : ClientOption.t;
        logMode : bool;
        onConnect : bool;          (* an on-connect handler is installed *)
        onConnectionLost : bool;   (* a connection-lost handler is installed *)
        started : bool;
        closed : bool }.
End Client.

  (** [*cs104.Client]: an index into the store of session objects. *)
Definition ClientRef : Type := nat.

End cs104.

(* ===================================================================== *)
(** ** Package iec_client: the point types *)
(* ===================================================================== *)

(** [type DataType int] with its four constants. *)
Inductive DataType : Type :=
| Telemetry
| Teleindication
| Telecontrol
| Teleregulation.

#[global] Instance DataType_eq_dec : EqDecision DataType.
Proof. solve_decision. Defined.

Definition DataType_String (d : DataType) : string :=
  match d with
  | Telemetry => "Telemetry"
  | Teleindication => "Teleindication"
  | Telecontrol => "Telecontrol"
  | Teleregulation => "Teleregulation"
  end.

Module DataPoint.
Record t : Type := mk
    { Address : Z; Description : string; Timestamp : time.Time }.
  (** The zero value of the struct. *)
Definition zero : t := mk 0 "" time.zeroTime.
End DataPoint.

Module TelemetryPoint.
Record t : Type := mk { DataPoint : DataPoint.t; Value : GoFloat.float64 }.
End TelemetryPoint.

Module TeleindPoint.
Record t : Type := mk { DataPoint : DataPoint.t; Value : bool }.
End TeleindPoint.

Module TelecontrolPoint.
Record t : Type := mk { DataPoint : DataPoint.t; Value : bool }.
End TelecontrolPoint.

Module TeleregulationPoint.
Record t : Type := mk { DataPoint : DataPoint.t; Value : GoFloat.float64 }.
End TeleregulationPoint.

(** The [data interface{}] argument of a [DataHandler]. *)
Inductive DataValue : Type :=
| VFloat (f : GoFloat.float64)
| VBool (b : bool).

(** Handlers and loggers are opaque to the client: it stores them, tests
    them against [nil] and calls them.  A reference names the stored value. *)
Definition HandlerRef : Type := nat.
Definition LoggerRef : Type := nat.

(** [type IEC104Client struct].  [closer] is [true] once the channel is
    closed; the mutex [mu] shows as lock and unlock events in the trace. *)
Module IEC104Client.
Record t : Type := mk
    { client : option cs104.ClientRef;
      serverIP : string;
      serverPort : Z;
      commonAddr : Z;
      Logger : option LoggerRef;
      closer : bool;
      connectionStateHandler : option HandlerRef;
      dataHandler : option HandlerRef;
      Connected : bool;
      Telemetry : gmap Z TelemetryPoint.t;
      Teleindication : gmap Z TeleindPoint.t;
      Telecontrol : gmap Z TelecontrolPoint.t;
      Teleregulation : gmap Z TeleregulationPoint.t }.

Definition set_client v (c : t) : t :=
    mk v (serverIP c) (serverPort c) (commonAddr c) (Logger c) (closer c)
       (connectionStateHandler c) (dataHandler c) (Connected c)
       (Telemetry c) (Teleindication c) (Telecontrol c) (Teleregulation c).
Definition set_config host port ca (c : t) : t :=
    mk (client c) host port ca (Logger c) (closer c)
       (connectionStateHandler c) (dataHandler c) (Connected c)
       (Telemetry c) (Teleindication c) (Telecontrol c) (Teleregulation c).
Definition set_Logger v (c : t) : t :=
    mk (client c) (serverIP c) (serverPort c) (commonAddr c) v (closer c)
       (connectionStateHandler c) (dataHandler c) (Connected c)
       (Telemetry c) (Teleindication c) (Telecontrol c) (Teleregulation c).
Definition set_closer v (c : t) : t :=
    mk (client c) (serverIP c) (serverPort c) (commonAddr c) (Logger c) v
       (connectionStateHandler c) (dataHandler c) (Connected c)
       (Telemetry c) (Teleindication c) (Telecontrol c) (Teleregulation c).
Definition set_connectionStateHandler v (c : t) : t :=
    mk (client c) (serverIP c) (serverPort c) (commonAddr c) (Logger c)
       (closer c) v (dataHandler c) (Connected c)
       (Telemetry c) (Teleindication c) (Telecontrol c) (Teleregulation c).
Definition set_dataHandler v (c : t) : t :=
    mk (client c) (serverIP c) (serverPort c) (commonAddr c) (Logger c)
       (closer c) (connectionStateHandler c) v (Connected c)
       (Telemetry c) (Teleindication c) (Telecontrol c) (Teleregulation c).
Definition set_Connected v (c : t) : t :=
    mk (client c) (serverIP c) (serverPort c) (commonAddr c) (Logger c)
       (closer c) (connectionStateHandler c) (dataHandler c) v
       (Telemetry c) (Teleindication c) (Telecontrol c) (Teleregulation c).
Definition set_Telemetry v (c : t) : t :=
    mk (client c) (serverIP c) (serverPort c) (commonAddr c) (Logger c)
       (closer c) (connectionStateHandler c) (dataHandler c) (Connected c)
       v (Teleindication c) (Telecontrol c) (Teleregulation c).
Definition set_Teleindication v (c : t) : t :=
    mk (client c) (serverIP c) (serverPort c) (commonAddr c) (Logger c)
       (closer c) (connectionStateHandler c) (dataHandler c) (Connected c)
       (Telemetry c) v (Telecontrol c) (Teleregulation c).
Definition set_Telecontrol v (c : t) : t :=
    mk (client c) (serverIP c) (serverPort c) (commonAddr c) (Logger c)
       (closer c) (connectionStateHandler c) (dataHandler c) (Connected c)
       (Telemetry c) (Teleindication c) v (Teleregulation c).
Definition set_Teleregulation v (c : t) : t :=
    mk (client c) (serverIP c) (serverPort c) (commonAddr c) (Logger c)
       (closer c) (connectionStateHandler c) (dataHandler c) (Connected c)
       (Telemetry c) (Teleindication c) (Telecontrol c) v.
End IEC104Client.

(* ===================================================================== *)
(** ** The world the client runs in *)
(* ===================================================================== *)

(** A call into the transport through package [asdu], with the session it is
    made on. *)
Inductive TransportCall : Type :=
| SingleCmd (c : cs104.ClientRef) (typeID : asdu.TypeID)
    (coa : asdu.CauseOfTransmission.t) (ca : asdu.CommonAddr)
    (cmd : asdu.SingleCommandInfo.t)
| SetpointCmdFloat (c : cs104.ClientRef) (typeID : asdu.TypeID)
    (coa : asdu.CauseOfTransmission.t) (ca : asdu.CommonAddr)
    (cmd : asdu.SetpointCommandFloatInfo.t)
| InterrogationCmd (c : cs104.ClientRef)
    (coa : asdu.CauseOfTransmission.t) (ca : asdu.CommonAddr)
    (qoi : asdu.QualifierOfInterrogation).

Inductive LogLevel : Type := LevelDebug | LevelInfo | LevelError.

(** An argument of a log call. *)
Inductive LogArg : Type :=
| AStr (s : string)
| AInt (z : Z)
| ABool (b : bool)
| AFloat (f : GoFloat.float64)
| AErr (e : error)
| ATypeID (t : asdu.TypeID).

(** The text of a table cell: a literal, or [fmt.Sprintf("%.2f", f)]. *)
Inductive CellText : Type :=
| TextLit (s : string)
| TextFloat2 (f : GoFloat.float64).

(** What an observer of the program can see, in the order it happens. *)
Inductive Event : Type :=
| EvTransport (call : TransportCall) (result : option error)
| EvSleep (d : time.Duration)
| EvLock
| EvUnlock
| EvStart (c : cs104.ClientRef) (result : option error)
| EvSessionClose (c : cs104.ClientRef)
| EvSendStartDt (c : cs104.ClientRef)
| EvConnectionState (h : HandlerRef) (connected : bool)
| EvData (h : HandlerRef) (typ : DataType) (iot : Z) (data : DataValue)
| EvLog (l : LoggerRef) (level : LogLevel) (format : string) (args : list LogArg)
| EvTimerNew (d : time.Duration)
| EvTimerFired
| EvTimerReset (d : time.Duration)
| EvTimerStop
| EvCloserFired
| EvSetCell (row col : Z) (text : CellText)
| EvRemovePage (name : string).

(** What the transport library answers.  [Send n call] is the answer to the
    [n]-th call made into the transport. *)
Module Env.
Record t : Type := mk
  { NewOption : cs104.ClientOption.t;
    AddRemoteServer : string -> option error;
    Start : cs104.ClientRef -> option error;
    Send : nat -> TransportCall -> option error }.
End Env.

Module World.
Record t : Type := mk
  { c : IEC104Client.t;
    sessions : list cs104.Client.t;
    env : Env.t;
    calls : nat;
    trace : list Event }.

Definition set_c v (w : t) : t :=
  mk v (sessions w) (env w) (calls w) (trace w).
Definition set_sessions v (w : t) : t :=
  mk (c w) v (env w) (calls w) (trace w).
Definition set_calls v (w : t) : t :=
  mk (c w) (sessions w) (env w) v (trace w).
Definition set_trace v (w : t) : t :=
  mk (c w) (sessions w) (env w) (calls w) v.
End World.

(* ===================================================================== *)
(** ** Computations: state passing, with panics *)
(* ===================================================================== *)

Inductive Res (A : Type) : Type :=
| Return (a : A) (w : World.t)
| Panicked (msg : string) (w : World.t).
Arguments Return {A} a w.
Arguments Panicked {A} msg w.

Definition Go (A : Type) : Type := World.t -> Res A.

Definition ret {A} (a : A) : Go A := fun w => Return a w.

Definition bind {A B} (m : Go A) (k : A -> Go B) : Go B :=
  fun w =>
    match m w with
    | Return a w' => k a w'
    | Panicked msg w' => Panicked msg w'
    end.

Notation "x <~ m ;; k" := (bind m (fun x => k))
  (at level 100, m at next level, right associativity).
Notation "m ;;; k" := (bind m (fun _ => k))
  (at level 100, right associativity).

Definition panic {A} (msg : string) : Go A := fun w => Panicked msg w.

Definition getc : Go IEC104Client.t := fun w => Return (World.c w) w.

Definition modc (f : IEC104Client.t -> IEC104Client.t) : Go unit :=
  fun w => Return tt (World.set_c (f (World.c w)) w).

Definition emit (e : Event) : Go unit :=
  fun w => Return tt (World.set_trace (World.trace w ++ [e]) w).

(** The world an outcome ends in, and the events added since [w]. *)
Definition world_of {A} (r : Res A) : World.t :=
  match r with Return _ w => w | Panicked _ w => w end.

(** Runtime panics of the Go runtime the program can run into. *)
Definition nilDereference : string :=
  "invalid memory address or nil pointer dereference".
Definition closeOfClosedChannel : string := "close of closed channel".

(** [defer f()]: [f] runs when the body returns and also when it panics. *)
Definition defer {A} (f : Go unit) (body : Go A) : Go A :=
  fun w =>
    match body w with
    | Return a w' =>
        match f w' with
        | Return _ w'' => Return a w''
        | Panicked msg w'' => Panicked msg w''
        end
    | Panicked msg w' => Panicked msg (world_of (f w'))
    end.

(** [c.mu.Lock()] and [c.mu.Unlock()]. *)
Definition mu_Lock : Go unit := emit EvLock.
Definition mu_Unlock : Go unit := emit EvUnlock.

(** [time.Sleep(d)]. *)
Definition Sleep (d : time.Duration) : Go unit := emit (EvSleep d).

(** A call into the transport: it is recorded with the answer of the
    environment and counted. *)
Definition transport (call : TransportCall) : Go (option error) :=
  fun w =>
    let r := Env.Send (World.env w) (World.calls w) call in
    Return r
      (World.set_trace (World.trace w ++ [EvTransport call r])
         (World.set_calls (S (World.calls w)) w)).

(** The three senders of package [asdu], called with the session pointer
    [c.client]; on a [nil] session they dereference it. *)
Definition asdu_SingleCmd (s : option cs104.ClientRef) typeID coa ca cmd
  : Go (option error) :=
  match s with
  | Some r => transport (SingleCmd r typeID coa ca cmd)
  | None => panic nilDereference
  end.

Definition asdu_SetpointCmdFloat (s : option cs104.ClientRef) typeID coa ca cmd
  : Go (option error) :=
  match s with
  | Some r => transport (SetpointCmdFloat r typeID coa ca cmd)
  | None => panic nilDereference
  end.

Definition asdu_InterrogationCmd (s : option cs104.ClientRef) coa ca qoi
  : Go (option error) :=
  match s with
  | Some r => transport (InterrogationCmd r coa ca qoi)
  | None => panic nilDereference
  end.

(** The three methods of the [Logger] interface, called on [c.Logger]. *)
Definition Logger_log (level : LogLevel) (format : string) (args : list LogArg)
  : Go unit :=
  c <~ getc ;;
  match IEC104Client.Logger c with
  | Some l => emit (EvLog l level format args)
  | None => panic nilDereference
  end.

Definition Logger_Debugf := Logger_log LevelDebug.
Definition Logger_Infof := Logger_log LevelInfo.
Definition Logger_Errorf := Logger_log LevelError.

(** [for _, d := range data { body }] *)
Fixpoint range {A} (data : list A) (body : A -> Go unit) : Go unit :=
  match data with
  | [] => ret tt
  | d :: data' => body d ;;; range data' body
  end.

(* ===================================================================== *)
(** ** Package cs104: the calls the client makes on a session *)
(* ===================================================================== *)

(** [option.SetAutoReconnect(b)] *)
Definition SetAutoReconnect (b : bool) (o : cs104.ClientOption.t)
  : cs104.ClientOption.t :=
  cs104.ClientOption.mk b (cs104.ClientOption.reconnectInterval o)
    (cs104.ClientOption.server o).

(** [option.SetReconnectInterval(t)]: kept when [t] is positive. *)
Definition SetReconnectInterval (t : time.Duration) (o : cs104.ClientOption.t)
  : cs104.ClientOption.t :=
  cs104.ClientOption.mk (cs104.ClientOption.autoReconnect o)
    (if 0 <? t then t else cs104.ClientOption.reconnectInterval o)
    (cs104.ClientOption.server o).

(** [option.AddRemoteServer(addr)]: the library parses the address; whether
    it accepts it is the environment's answer. *)
Definition AddRemoteServer (addr : string) (o : cs104.ClientOption.t)
  : Go (option error * cs104.ClientOption.t) :=
  fun w =>
    match Env.AddRemoteServer (World.env w) addr with
    | Some err => Return (Some err, o) w
    | None =>
        Return (None,
                cs104.ClientOption.mk (cs104.ClientOption.autoReconnect o)
                  (cs104.ClientOption.reconnectInterval o) (Some addr)) w
    end.

(** [cs104.NewClient(c, option)]: a fresh session object. *)
Definition NewClient (o : cs104.ClientOption.t) : Go cs104.ClientRef :=
  fun w =>
    Return (length (World.sessions w))
      (World.set_sessions
         (World.sessions w ++ [cs104.Client.mk o false false false false false])
         w).

Definition modsession (r : cs104.ClientRef)
  (f : cs104.Client.t -> cs104.Client.t) : Go unit :=
  fun w => Return tt (World.set_sessions (alter f r (World.sessions w)) w).

Definition Client_LogMode (r : cs104.ClientRef) (b : bool) : Go unit :=
  modsession r (fun s =>
    cs104.Client.mk (cs104.Client.option_ s) b (cs104.Client.onConnect s)
      (cs104.Client.onConnectionLost s) (cs104.Client.started s)
      (cs104.Client.closed s)).

Definition Client_SetOnConnectHandler (r : cs104.ClientRef) : Go unit :=
  modsession r (fun s =>
    cs104.Client.mk (cs104.Client.option_ s) (cs104.Client.logMode s) true
      (cs104.Client.onConnectionLost s) (cs104.Client.started s)
      (cs104.Client.closed s)).

Definition Client_SetConnectionLostHandler (r : cs104.ClientRef) : Go unit :=
  modsession r (fun s =>
    cs104.Client.mk (cs104.Client.option_ s) (cs104.Client.logMode s)
      (cs104.Client.onConnect s) true (cs104.Client.started s)
      (cs104.Client.closed s)).

(** [client.Start()]: starts the session's connect loop. *)
Definition Client_Start (r : cs104.ClientRef) : Go (option error) :=
  fun w =>
    let res := Env.Start (World.env w) r in
    let mark (s : cs104.Client.t) :=
      cs104.Client.mk (cs104.Client.option_ s) (cs104.Client.logMode s)
        (cs104.Client.onConnect s) (cs104.Client.onConnectionLost s)
        (match res with None => true | Some _ => cs104.Client.started s end)
        (cs104.Client.closed s) in
    Return res
      (World.set_trace (World.trace w ++ [EvStart r res])
         (World.set_sessions (alter mark r (World.sessions w)) w)).

(** [client.Close()]: cancels the session's connect loop. *)
Definition Client_Close (r : cs104.ClientRef) : Go unit :=
  modsession r (fun s =>
    cs104.Client.mk (cs104.Client.option_ s) (cs104.Client.logMode s)
      (cs104.Client.onConnect s) (cs104.Client.onConnectionLost s)
      (cs104.Client.started s) true) ;;;
  emit (EvSessionClose r).

Definition Client_SendStartDt (r : cs104.ClientRef) : Go unit :=
  emit (EvSendStartDt r).

(* ===================================================================== *)
(** ** Package iec_client: the client *)
(* ===================================================================== *)

(** A goroutine the constructor starts: [go client.run(callInterval)]. *)
Inductive Goroutine : Type :=
| go_run (callInterval : time.Duration).

(** [NewIEC104Client(host, port, commonAddr)]: the new client and the
    goroutine it starts. *)
Definition NewIEC104Client (host : string) (port commonAddr : Z)
  : IEC104Client.t * list Goroutine :=
  (IEC104Client.mk None host port commonAddr None false None None false
     ∅ ∅ ∅ ∅,
   [go_run (time.Second * 15)]).

Definition UpdateConfig (host : string) (port commonAddr : Z) : Go unit :=
  mu_Lock ;;;
  mu_Unlock ;;;
  modc (IEC104Client.set_config host port commonAddr).

Definition RegisterConnectionStateHandler (handler : option HandlerRef)
  : Go unit :=
  modc (IEC104Client.set_connectionStateHandler handler).

Definition RegisterDataHandler (handler : option HandlerRef) : Go unit :=
  modc (IEC104Client.set_dataHandler handler).

(** [if c.connectionStateHandler != nil { c.connectionStateHandler(b) }] *)
Definition call_connectionStateHandler (b : bool) : Go unit :=
  c <~ getc ;;
  match IEC104Client.connectionStateHandler c with
  | Some h => emit (EvConnectionState h b)
  | None => ret tt
  end.

(** [if c.dataHandler != nil { c.dataHandler(typ, iot, data) }] *)
Definition call_dataHandler (typ : DataType) (iot : Z) (data : DataValue)
  : Go unit :=
  c <~ getc ;;
  match IEC104Client.dataHandler c with
  | Some h => emit (EvData h typ iot data)
  | None => ret tt
  end.

(** The closure [Connect] installs with [SetOnConnectHandler]; the transport
    calls it with the session that connected. *)
Definition onConnectHandler (client : cs104.ClientRef) : Go unit :=
  modc (IEC104Client.set_Connected true) ;;;
  call_connectionStateHandler true ;;;
  c <~ getc ;;
  Logger_Infof "Connected to server: %s:%d"
    [AStr (IEC104Client.serverIP c); AInt (IEC104Client.serverPort c)] ;;;
  Client_SendStartDt client.

(** The closure [Connect] installs with [SetConnectionLostHandler]. *)
Definition connectionLostHandler (client : cs104.ClientRef) : Go unit :=
  modc (IEC104Client.set_Connected false) ;;;
  call_connectionStateHandler false ;;;
  c <~ getc ;;
  Logger_Infof "Disconnected from server: %s:%d"
    [AStr (IEC104Client.serverIP c); AInt (IEC104Client.serverPort c)].

Definition Connect : Go (option error) :=
  c <~ getc ;;
  if IEC104Client.Connected c then ret None
  else
    mu_Lock ;;;
    defer mu_Unlock
      (o0 <~ (fun w => Return (Env.NewOption (World.env w)) w) ;;
       let option := SetReconnectInterval (5 * time.Second)
                       (SetAutoReconnect true o0) in
       r <~ AddRemoteServer
              (Sprintf_s_d (IEC104Client.serverIP c) (IEC104Client.serverPort c))
              option ;;
       match r with
       | (Some err, _) => ret (Some err)
       | (None, option) =>
           s <~ NewClient option ;;
           modc (IEC104Client.set_client (Some s)) ;;;
           Client_LogMode s false ;;;
           Client_SetOnConnectHandler s ;;;
           Client_SetConnectionLostHandler s ;;;
           err <~ Client_Start s ;;
           match err with
           | Some e => ret (Some (Errorf_v "connect error: " e))
           | None => ret None
           end
       end).

(** [p == nil] for a pointer. *)
Definition is_nil {A} (p : option A) : bool :=
  match p with None => true | Some _ => false end.

(** [c.client.Close()] on the session pointer, which may be [nil]. *)
Definition client_Close (p : option cs104.ClientRef) : Go unit :=
  match p with
  | Some s => Client_Close s
  | None => panic nilDereference
  end.

Definition Disconnect : Go (option error) :=
  c <~ getc ;;
  if negb (IEC104Client.Connected c) || is_nil (IEC104Client.client c)
  then ret None
  else
    mu_Lock ;;;
    defer mu_Unlock
      (c <~ getc ;;
       client_Close (IEC104Client.client c) ;;;
       modc (IEC104Client.set_Connected false) ;;;
       ret None).

(** [close(c.closer)]: closing a closed channel panics. *)
Definition close_closer : Go unit :=
  c <~ getc ;;
  if IEC104Client.closer c then panic closeOfClosedChannel
  else modc (IEC104Client.set_closer true).

Definition Close : Go unit :=
  close_closer ;;;
  _ <~ Disconnect ;;
  ret tt.

(** [asdu.CauseOfTransmission{Cause: asdu.Activation}] *)
Definition coa_Activation : asdu.CauseOfTransmission.t :=
  asdu.CauseOfTransmission.mk false false asdu.Activation.

(** SendTelecontrol sends a telecontrol command (digital control) to the
    server: a single command, sent with select and then without. *)
Definition SendTelecontrol (offset : Z) (value : bool) : Go (option error) :=
  c <~ getc ;;
  if negb (IEC104Client.Connected c) || is_nil (IEC104Client.client c)
  then ret (Some ErrorNoConnection)
  else
    let ioa := GoInt.add offset 24577 in
    mu_Lock ;;;
    defer mu_Unlock
      (c <~ getc ;;
       err <~ asdu_SingleCmd (IEC104Client.client c) asdu.C_SC_NA_1
                coa_Activation 1
                (asdu.SingleCommandInfo.mk (asdu.InfoObjAddr_of_int ioa) value
                   (asdu.QualifierOfCommand.mk 0 true) time.zeroTime) ;;
       match err with
       | Some e => ret (Some (Errorf_v "send Select Command error: " e))
       | None =>
           Sleep (time.Millisecond * 200) ;;;
           c <~ getc ;;
           err <~ asdu_SingleCmd (IEC104Client.client c) asdu.C_SC_NA_1
                    coa_Activation 1
                    (asdu.SingleCommandInfo.mk (asdu.InfoObjAddr_of_int ioa)
                       value (asdu.QualifierOfCommand.mk 0 false)
                       time.zeroTime) ;;
           match err with
           | Some e => ret (Some (Errorf_v "send Telecontrol Command error: " e))
           | None => ret None
           end
       end).

(** SendTelemetry sends a telemetry command (analog control) to the server:
    a short floating point setpoint. *)
Definition SendTelemetry (offset : Z) (value : GoFloat.float64)
  : Go (option error) :=
  c <~ getc ;;
  if negb (IEC104Client.Connected c) || is_nil (IEC104Client.client c)
  then ret (Some ErrorNoConnection)
  else
    let ioa := GoInt.add offset 25089 in
    mu_Lock ;;;
    defer mu_Unlock
      (c <~ getc ;;
       err <~ asdu_SetpointCmdFloat (IEC104Client.client c) asdu.C_SE_NC_1
                coa_Activation 1
                (asdu.SetpointCommandFloatInfo.mk (asdu.InfoObjAddr_of_int ioa)
                   (GoFloat.to_float32 value)
                   (asdu.QualifierOfSetpointCmd.mk 0 false) time.zeroTime) ;;
       match err with
       | Some e => ret (Some (Errorf_v "send Telemetry Command error: " e))
       | None => ret None
       end).

(** The point the ingestion handler stores for a measured value. *)
Definition telemetryPoint (ioa : asdu.InfoObjAddr) (t : time.Time)
  (v : GoFloat.float64) : TelemetryPoint.t :=
  TelemetryPoint.mk (DataPoint.mk (GoInt.of_uint ioa) "" t) v.

Definition teleindPoint (ioa : asdu.InfoObjAddr) (t : time.Time) (v : bool)
  : TeleindPoint.t :=
  TeleindPoint.mk (DataPoint.mk (GoInt.of_uint ioa) "" t) v.

(** [c.Telemetry[k] = p] and [c.Teleindication[k] = p] *)
Definition store_Telemetry (k : Z) (p : TelemetryPoint.t) : Go unit :=
  modc (fun c => IEC104Client.set_Telemetry (<[k := p]> (IEC104Client.Telemetry c)) c).

Definition store_Teleindication (k : Z) (p : TeleindPoint.t) : Go unit :=
  modc (fun c =>
    IEC104Client.set_Teleindication (<[k := p]> (IEC104Client.Teleindication c)) c).

(** The handler the transport calls with every decoded message. *)
Definition ASDUHandler (a : asdu.ASDU.t) : Go (option error) :=
  c <~ getc ;;
  if negb (asdu.ASDU.CommonAddr a =? asdu.CommonAddr_of_int (IEC104Client.commonAddr c))
  then ret None
  else
    (if asdu.ASDU.Type_ a =? asdu.M_ME_NC_1 then
       range (asdu.ASDU.GetMeasuredValueFloat a) (fun d =>
         let ioa := asdu.MeasuredValueFloatInfo.Ioa d in
         let v := GoFloat.of_float32 (asdu.MeasuredValueFloatInfo.Value d) in
         store_Telemetry (GoInt.of_uint ioa)
           (telemetryPoint ioa (asdu.MeasuredValueFloatInfo.Time d) v) ;;;
         call_dataHandler Telemetry (GoInt.of_uint ioa) (VFloat v))
     else if (asdu.ASDU.Type_ a =? asdu.M_ME_NA_1)
             || (asdu.ASDU.Type_ a =? asdu.M_ME_ND_1) then
       range (asdu.ASDU.GetMeasuredValueNormal a) (fun d =>
         let ioa := asdu.MeasuredValueNormalInfo.Ioa d in
         let v := GoFloat.of_int16 (asdu.MeasuredValueNormalInfo.Value d) in
         store_Telemetry (GoInt.of_uint ioa)
           (telemetryPoint ioa (asdu.MeasuredValueNormalInfo.Time d) v) ;;;
         call_dataHandler Telemetry (GoInt.of_uint ioa) (VFloat v))
     else if asdu.ASDU.Type_ a =? asdu.M_SP_NA_1 then
       range (asdu.ASDU.GetSinglePoint a) (fun d =>
         let ioa := asdu.SinglePointInfo.Ioa d in
         let v := asdu.SinglePointInfo.Value d in
         store_Teleindication (GoInt.of_uint ioa)
           (teleindPoint ioa (asdu.SinglePointInfo.Time d) v) ;;;
         call_dataHandler Teleindication (GoInt.of_uint ioa) (VBool v))
     else if asdu.ASDU.Type_ a =? asdu.M_ME_NB_1 then
       range (asdu.ASDU.GetMeasuredValueScaled a) (fun d =>
         let ioa := asdu.MeasuredValueScaledInfo.Ioa d in
         let v := GoFloat.of_int16 (asdu.MeasuredValueScaledInfo.Value d) in
         store_Telemetry (GoInt.of_uint ioa)
           (telemetryPoint ioa (asdu.MeasuredValueScaledInfo.Time d) v) ;;;
         call_dataHandler Telemetry (GoInt.of_uint ioa) (VFloat v))
     else
       Logger_Debugf "Invalid ASDU type: %s" [ATypeID (asdu.ASDU.Type_ a)]) ;;;
    ret None.

(** One interrogation of the station, if connected. *)
Definition allCall : Go unit :=
  c <~ getc ;;
  if negb (IEC104Client.Connected c) then ret tt
  else
    let coa := coa_Activation in
    let ca := asdu.CommonAddr_of_int (IEC104Client.commonAddr c) in
    err <~ asdu_InterrogationCmd (IEC104Client.client c) coa ca asdu.QOIStation ;;
    match err with
    | Some e => Logger_Infof "104 interrogation error = %v" [AErr e]
    | None => ret tt
    end.

(* ===================================================================== *)
(** ** The other goroutines *)
(* ===================================================================== *)

(** What the caller's goroutine and the transport's goroutine can do to the
    client while the scheduler sleeps or waits: the exported methods, the
    assignment of the exported [Logger] field, and the transport's three
    callbacks. *)
Inductive Op : Type :=
| OpConnect
| OpDisconnect
| OpClose
| OpUpdateConfig (host : string) (port commonAddr : Z)
| OpRegisterConnectionStateHandler (h : option HandlerRef)
| OpRegisterDataHandler (h : option HandlerRef)
| OpSetLogger (l : option LoggerRef)
| OpSendTelecontrol (offset : Z) (value : bool)
| OpSendTelemetry (offset : Z) (value : GoFloat.float64)
| OpOnConnect (s : cs104.ClientRef)
| OpConnectionLost (s : cs104.ClientRef)
| OpASDU (a : asdu.ASDU.t).

(** The transport calls a handler of a session only where [Connect] has
    installed it. *)
Definition installed (sel : cs104.Client.t -> bool) (s : cs104.ClientRef)
  : Go bool :=
  fun w =>
    Return (match World.sessions w !! s with
            | Some x => sel x
            | None => false
            end) w.

Definition exec (op : Op) : Go unit :=
  match op with
  | OpConnect => _ <~ Connect ;; ret tt
  | OpDisconnect => _ <~ Disconnect ;; ret tt
  | OpClose => Close
  | OpUpdateConfig host port ca => UpdateConfig host port ca
  | OpRegisterConnectionStateHandler h => RegisterConnectionStateHandler h
  | OpRegisterDataHandler h => RegisterDataHandler h
  | OpSetLogger l => modc (IEC104Client.set_Logger l)
  | OpSendTelecontrol offset value => _ <~ SendTelecontrol offset value ;; ret tt
  | OpSendTelemetry offset value => _ <~ SendTelemetry offset value ;; ret tt
  | OpOnConnect s =>
      b <~ installed cs104.Client.onConnect s ;;
      if b then onConnectHandler s else ret tt
  | OpConnectionLost s =>
      b <~ installed cs104.Client.onConnectionLost s ;;
      if b then connectionLostHandler s else ret tt
  | OpASDU a => _ <~ ASDUHandler a ;; ret tt
  end.

Fixpoint execs (ops : list Op) : Go unit :=
  match ops with
  | [] => ret tt
  | op :: ops' => exec op ;;; execs ops'
  end.

(* ===================================================================== *)
(** ** The interrogation scheduler *)
(* ===================================================================== *)

(** The case a [select] takes. *)
Inductive SelectCase : Type := TimerC | CloserC.

(** Where the goroutine is when the schedule ends. *)
Inductive RunState : Type := AtSelect | Exited.

(** One round of the loop: what the other goroutines do while [run] waits
    at its [select], and the case the runtime then takes.  The case
    [<-c.closer] can only be taken once the channel is closed; until then
    the wait ends with the timer. *)
Definition Round : Type := (list Op * SelectCase)%type.

Definition select (choice : SelectCase) : Go SelectCase :=
  c <~ getc ;;
  ret (if IEC104Client.closer c then choice else TimerC).

(** The [for { select { ... } }] of [run]. *)
Fixpoint run_loop (callInterval : time.Duration) (schedule : list Round)
  : Go RunState :=
  match schedule with
  | [] => ret AtSelect
  | (others, choice) :: schedule' =>
      execs others ;;;
      k <~ select choice ;;
      match k with
      | TimerC =>
          emit EvTimerFired ;;;
          allCall ;;;
          emit (EvTimerReset callInterval) ;;;
          run_loop callInterval schedule'
      | CloserC =>
          emit EvCloserFired ;;;
          ret Exited
      end
  end.

(** [defer timer.Stop()] around the loop: the call runs when [run] returns
    or panics; a goroutine that still waits at its [select] has not
    returned. *)
Definition defer_timer_Stop (body : Go RunState) : Go RunState :=
  fun w =>
    match body w with
    | Return Exited w' => Return Exited (world_of (emit EvTimerStop w'))
    | Return AtSelect w' => Return AtSelect w'
    | Panicked msg w' => Panicked msg (world_of (emit EvTimerStop w'))
    end.

(** [run(callInterval)].  [during_sleep] is what the other goroutines do
    during the first five seconds. *)
Definition run (callInterval : time.Duration) (during_sleep : list Op)
  (schedule : list Round) : Go RunState :=
  Sleep (time.Second * 5) ;;;
  execs during_sleep ;;;
  allCall ;;;
  emit (EvTimerNew callInterval) ;;;
  defer_timer_Stop (run_loop callInterval schedule).

(** A goroutine started by the constructor, run against a schedule. *)
Definition spawn (g : Goroutine) (during_sleep : list Op)
  (schedule : list Round) : Go RunState :=
  match g with
  | go_run callInterval => run callInterval during_sleep schedule
  end.

(* ===================================================================== *)
(** ** Package config *)
(* ===================================================================== *)

Module Config.
Record t : Type := mk
  { IPAddress : string;
    Port : Z;
    CommonAddress : Z;
    TelemetryCount : Z;
    TeleindCount : Z;
    InterrogationInterval : Z;   (* in seconds *)
    TelemetryDescriptions : gmap Z string;
    TeleindDescriptions : gmap Z string }.
End Config.

(** NewConfig creates a new configuration with default values. *)
Definition NewConfig : Config.t :=
  Config.mk "127.0.0.1" 2404 1 100 100 15 ∅ ∅.

(* ===================================================================== *)
(** ** Package ui: the two command dialogs *)
(* ===================================================================== *)

(** [index := (row-1)*10 + col - 1], the offset both dialogs compute. *)
Definition dialog_index (row col : Z) : Z :=
  GoInt.sub (GoInt.add (GoInt.mul (GoInt.sub row 1) 10) col) 1.

(** [a.logger.Infof(format, args...)] on the application's own logger. *)
Definition App_logger_Infof (logger : LoggerRef) (format : string)
  (args : list LogArg) : Go unit :=
  emit (EvLog logger LevelInfo format args).

(** The Send button of [showTelecontrolDialog(row, col)], with the value of
    the checkbox. *)
Definition showTelecontrolDialog_Send (logger : LoggerRef) (row col : Z)
  (value : bool) : Go unit :=
  let index := dialog_index row col in
  err <~ SendTelecontrol index value ;;
  match err with
  | Some e => App_logger_Infof logger "Error sending telecontrol: %v" [AErr e]
  | None =>
      App_logger_Infof logger
        "Telecontrol command sent to address %d, value: %v"
        [AInt index; ABool value] ;;;
      let v := if value then "ON" else "OFF" in
      emit (EvSetCell row col (TextLit v)) ;;;
      modc (fun c =>
        IEC104Client.set_Telecontrol
          (<[index := TelecontrolPoint.mk DataPoint.zero value]>
             (IEC104Client.Telecontrol c)) c)
  end ;;;
  emit (EvRemovePage "dialog").

(** The Send button of [showTeleregulationDialog(row, col)], with the value
    scanned from the input field. *)
Definition showTeleregulationDialog_Send (logger : LoggerRef) (row col : Z)
  (value : GoFloat.float64) : Go unit :=
  let index := dialog_index row col in
  err <~ SendTelemetry index value ;;
  match err with
  | Some e => App_logger_Infof logger "Error sending teleregulation: %v" [AErr e]
  | None =>
      App_logger_Infof logger
        "Teleregulation setpoint sent to address %d, value: %v"
        [AInt index; AFloat value] ;;;
      emit (EvSetCell row col (TextFloat2 value)) ;;;
      modc (fun c =>
        IEC104Client.set_Teleregulation
          (<[index := TeleregulationPoint.mk DataPoint.zero value]>
             (IEC104Client.Teleregulation c)) c)
  end ;;;
  emit (EvRemovePage "dialog").

(* ===================================================================== *)
(** ** Worlds to run the program in *)
(* ===================================================================== *)

(** A transport that accepts everything. *)
Definition quiet_env : Env.t :=
  Env.mk (cs104.ClientOption.mk true (60 * time.Second) None)
    (fun _ => None) (fun _ => None) (fun _ _ => None).

(** A transport that refuses the calls whose numbers are in [failing]. *)
Definition faulty_env (failing : list nat) : Env.t :=
  Env.mk (cs104.ClientOption.mk true (60 * time.Second) None)
    (fun _ => None) (fun _ => None)
    (fun n _ =>
       if bool_decide (n ∈ failing) then Some (errorString "use of closed connection")
       else None).

(** The world right after [NewIEC104Client(host, port, commonAddr)]. *)
Definition initial_world (e : Env.t) (host : string) (port commonAddr : Z)
  : World.t :=
  World.mk (fst (NewIEC104Client host port commonAddr)) [] e 0 [].

(** The world after the application has set its logger and handlers, the
    operator has pressed Start and the transport has connected. *)
Definition connected_world (e : Env.t) : World.t :=
  world_of
    (execs [OpSetLogger (Some 0%nat);
            OpRegisterConnectionStateHandler (Some 1%nat);
            OpRegisterDataHandler (Some 2%nat);
            OpConnect;
            OpOnConnect 0%nat]
       (initial_world e "127.0.0.1" 2404 1)).

(** The events a computation adds to the trace of [w]. *)
Definition events_since (w w' : World.t) : list Event :=
  drop (length (World.trace w)) (World.trace w').

(* ===================================================================== *)
(** ** The properties, in the words of the specification *)
(* ===================================================================== *)

(** The definitions below do not come from the source: they say what the
    specification expects, name the worlds and messages the examples run
    on, and are compared with the program in the second part of the file. *)

(** The two messages of a telecontrol command, and the setpoint message, as
    the specification words them. *)
Definition select_phase (s : cs104.ClientRef) (ioa : asdu.InfoObjAddr)
  (v : bool) : TransportCall :=
  SingleCmd s asdu.C_SC_NA_1 coa_Activation 1
    (asdu.SingleCommandInfo.mk ioa v (asdu.QualifierOfCommand.mk 0 true)
       time.zeroTime).

Definition execute_phase (s : cs104.ClientRef) (ioa : asdu.InfoObjAddr)
  (v : bool) : TransportCall :=
  SingleCmd s asdu.C_SC_NA_1 coa_Activation 1
    (asdu.SingleCommandInfo.mk ioa v (asdu.QualifierOfCommand.mk 0 false)
       time.zeroTime).

Definition setpoint_message (s : cs104.ClientRef) (ioa : asdu.InfoObjAddr)
  (v : GoFloat.float32) : TransportCall :=
  SetpointCmdFloat s asdu.C_SE_NC_1 coa_Activation 1
    (asdu.SetpointCommandFloatInfo.mk ioa v
       (asdu.QualifierOfSetpointCmd.mk 0 false) time.zeroTime).

(** The error a send returns for the answer of the transport. *)
Definition with_context (context : string) (r : option error) : option error :=
  match r with
  | Some e => Some (Errorf_v context e)
  | None => None
  end.

(** Unfolds an operation of the client down to the state it passes. *)
Ltac run_go :=
  unfold SendTelecontrol, SendTelemetry, Disconnect, Connect, Close,
    close_closer, allCall, asdu_SingleCmd, asdu_SetpointCmdFloat,
    asdu_InterrogationCmd, client_Close, Client_Close, modsession,
    mu_Lock, mu_Unlock, Sleep, transport, defer, bind, ret, getc, modc, emit,
    panic, world_of;
  simpl.

(** The kinds of message the specification tells apart. *)
Inductive Kind : Type :=
| ShortFloat
| Normalized
| Scaled
| SinglePoint
| OtherKind.

Definition kind_of (t : asdu.TypeID) : Kind :=
  if t =? asdu.M_ME_NC_1 then ShortFloat
  else if t =? asdu.M_ME_NA_1 then Normalized
  else if t =? asdu.M_ME_ND_1 then Normalized
  else if t =? asdu.M_ME_NB_1 then Scaled
  else if t =? asdu.M_SP_NA_1 then SinglePoint
  else OtherKind.

(** A decoded point: wire address, time tag, value. *)
Definition Point (V : Type) : Type := (asdu.InfoObjAddr * time.Time * V)%type.

(** The measured values of a message, each decoded to a [float64], and its
    single-point values. *)
Definition decoded_floats (a : asdu.ASDU.t) : list (Point GoFloat.float64) :=
  match kind_of (asdu.ASDU.Type_ a) with
  | ShortFloat =>
      map (fun d => (asdu.MeasuredValueFloatInfo.Ioa d,
                     asdu.MeasuredValueFloatInfo.Time d,
                     GoFloat.of_float32 (asdu.MeasuredValueFloatInfo.Value d)))
        (asdu.ASDU.GetMeasuredValueFloat a)
  | Normalized =>
      map (fun d => (asdu.MeasuredValueNormalInfo.Ioa d,
                     asdu.MeasuredValueNormalInfo.Time d,
                     GoFloat.of_int16 (asdu.MeasuredValueNormalInfo.Value d)))
        (asdu.ASDU.GetMeasuredValueNormal a)
  | Scaled =>
      map (fun d => (asdu.MeasuredValueScaledInfo.Ioa d,
                     asdu.MeasuredValueScaledInfo.Time d,
                     GoFloat.of_int16 (asdu.MeasuredValueScaledInfo.Value d)))
        (asdu.ASDU.GetMeasuredValueScaled a)
  | _ => []
  end.

Definition decoded_bools (a : asdu.ASDU.t) : list (Point bool) :=
  match kind_of (asdu.ASDU.Type_ a) with
  | SinglePoint =>
      map (fun d => (asdu.SinglePointInfo.Ioa d,
                     asdu.SinglePointInfo.Time d,
                     asdu.SinglePointInfo.Value d))
        (asdu.ASDU.GetSinglePoint a)
  | _ => []
  end.

(** [m[key x] = val x] for every [x] of a list, in its order. *)
Definition store_all {A V} (key : A -> Z) (val : A -> V) (xs : list A)
  (m : gmap Z V) : gmap Z V :=
  foldl (fun m x => <[key x := val x]> m) m xs.

(** Storing decoded points, in the order of the message: each under its
    wire address, converted to [int]. *)
Definition point_key {V} (p : Point V) : Z := GoInt.of_uint p.1.1.

Definition store_floats (ps : list (Point GoFloat.float64))
  (m : gmap Z TelemetryPoint.t) : gmap Z TelemetryPoint.t :=
  store_all point_key (fun p => telemetryPoint p.1.1 p.1.2 p.2) ps m.

Definition store_bools (ps : list (Point bool))
  (m : gmap Z TeleindPoint.t) : gmap Z TeleindPoint.t :=
  store_all point_key (fun p => teleindPoint p.1.1 p.1.2 p.2) ps m.

(** The registry after a message has been taken in. *)
Definition ingest (a : asdu.ASDU.t) (c : IEC104Client.t) : IEC104Client.t :=
  IEC104Client.set_Teleindication
    (store_bools (decoded_bools a) (IEC104Client.Teleindication c))
    (IEC104Client.set_Telemetry
       (store_floats (decoded_floats a) (IEC104Client.Telemetry c)) c).

(** The notifications a message gives rise to. *)
Definition notifications (h : option HandlerRef) (a : asdu.ASDU.t)
  : list Event :=
  match h with
  | Some h =>
      map (fun '(ioa, _, v) => EvData h Telemetry (GoInt.of_uint ioa) (VFloat v))
        (decoded_floats a) ++
      map (fun '(ioa, _, v) => EvData h Teleindication (GoInt.of_uint ioa) (VBool v))
        (decoded_bools a)
  | None => []
  end.

(** The outcome of the handler on a message of the station. *)
Definition dispatched (a : asdu.ASDU.t) (w : World.t) : Res (option error) :=
  match kind_of (asdu.ASDU.Type_ a) with
  | OtherKind =>
      match IEC104Client.Logger (World.c w) with
      | Some l =>
          Return None
            (World.set_trace
               (World.trace w ++
                  [EvLog l LevelDebug "Invalid ASDU type: %s"
                     [ATypeID (asdu.ASDU.Type_ a)]]) w)
      | None => Panicked nilDereference w
      end
  | _ =>
      Return None
        (World.set_trace
           (World.trace w ++
              notifications (IEC104Client.dataHandler (World.c w)) a)
           (World.set_c (ingest a (World.c w)) w))
  end.

(** The event a data handler sees for a decoded point. *)
Definition notify_float (h : HandlerRef) (p : Point GoFloat.float64) : Event :=
  EvData h Telemetry (point_key p) (VFloat p.2).

Definition notify_bool (h : HandlerRef) (p : Point bool) : Event :=
  EvData h Teleindication (point_key p) (VBool p.2).

(** The calls of the data handler for a list of points, if one is
    registered. *)
Definition told {V} (h : option HandlerRef) (f : HandlerRef -> Point V -> Event)
  (ps : list (Point V)) : list Event :=
  match h with
  | Some h => map (f h) ps
  | None => []
  end.

(** Two messages of station 1: two short floating point values at the wire
    addresses 100 and 101, and a single point with time tag (type
    identification 30), which the handler does not name. *)
Definition float_message : asdu.ASDU.t :=
  asdu.ASDU.mk asdu.M_ME_NC_1 1
    [asdu.MeasuredValueFloatInfo.mk 100 (S754_finite false 13421773 (-27)) 0 7;
     asdu.MeasuredValueFloatInfo.mk 101 (S754_zero false) 0 8]
    [] [] [].

Definition tagged_message : asdu.ASDU.t :=
  asdu.ASDU.mk 30 1 [] [] [asdu.SinglePointInfo.mk 100 true 0 9] [].

(** A message of station 2 with one short floating point value at the wire
    address 100. *)
Definition foreign_message : asdu.ASDU.t :=
  asdu.ASDU.mk asdu.M_ME_NC_1 2
    [asdu.MeasuredValueFloatInfo.mk 100 (S754_finite false 13421773 (-27)) 0 7]
    [] [] [].

(** The connected client after the transport has reported the loss of the
    connection. *)
Definition lost_world : World.t :=
  world_of (exec (OpConnectionLost 0%nat) (connected_world quiet_env)).

(** The general interrogation of the station. *)
Definition interrogation (s : cs104.ClientRef) (commonAddr : Z) : TransportCall :=
  InterrogationCmd s coa_Activation (asdu.CommonAddr_of_int commonAddr)
    asdu.QOIStation.

(** The events of one [allCall] on a connected client with a logger, given
    the answer of the transport. *)
Definition allCall_events (s : cs104.ClientRef) (commonAddr : Z) (l : LoggerRef)
  (r : option error) : list Event :=
  EvTransport (interrogation s commonAddr) r ::
  match r with
  | Some e => [EvLog l LevelInfo "104 interrogation error = %v" [AErr e]]
  | None => []
  end.

(** The events of [n] rounds in which the timer fires, with nothing else
    going on, on a connected client: per round one interrogation. *)
Fixpoint ticks_connected (callInterval : time.Duration) (s : cs104.ClientRef)
  (commonAddr : Z) (l : LoggerRef) (e : Env.t) (calls n : nat) : list Event :=
  match n with
  | O => []
  | S n' =>
      [EvTimerFired] ++
      allCall_events s commonAddr l (Env.Send e calls (interrogation s commonAddr)) ++
      [EvTimerReset callInterval] ++
      ticks_connected callInterval s commonAddr l e (S calls) n'
  end.

(** The same on a disconnected client: no interrogation. *)
Fixpoint ticks_disconnected (callInterval : time.Duration) (n : nat)
  : list Event :=
  match n with
  | O => []
  | S n' =>
      [EvTimerFired; EvTimerReset callInterval] ++
      ticks_disconnected callInterval n'
  end.

(** [n] rounds in which nothing else happens and the timer fires. *)
Definition timer_rounds (n : nat) : list Round := replicate n ([], TimerC).

(** A configuration in which the operator has set the interrogation
    interval to 30 seconds. *)
Definition config_30s : Config.t :=
  Config.mk "127.0.0.1" 2404 1 100 100 30 ∅ ∅.

(* ===================================================================== *)
(** ** Go integers: when the wrap-around does nothing *)
(* ===================================================================== *)

Lemma wrap_id (z : Z) : GoInt.is_int z -> GoInt.wrap z = z.
Proof.
  unfold GoInt.is_int, GoInt.MinInt, GoInt.MaxInt, GoInt.wrap, GoInt.intSize.
  intros H. rewrite Z.mod_small; lia.
Qed.

Lemma to_uint_id (z : Z) : 0 <= z <= GoInt.MaxInt -> GoInt.to_uint z = z.
Proof.
  unfold GoInt.MaxInt, GoInt.to_uint, GoInt.intSize.
  intros H. rewrite Z.mod_small; lia.
Qed.

Lemma of_uint_id (u : Z) : 0 <= u <= GoInt.MaxInt -> GoInt.of_uint u = u.
Proof.
  intros H. apply wrap_id. unfold GoInt.is_int, GoInt.MinInt, GoInt.MaxInt in *.
  unfold GoInt.intSize in *. lia.
Qed.

Lemma to_uint16_id (z : Z) : 0 <= z < 65536 -> GoInt.to_uint16 z = z.
Proof. unfold GoInt.to_uint16. intros H. rewrite Z.mod_small; lia. Qed.

(** The wire address of an offset whose sum with the base is a
    non-negative [int]. *)
Lemma ioa_of_offset (offset base : Z) :
  0 <= offset + base <= GoInt.MaxInt ->
  asdu.InfoObjAddr_of_int (GoInt.add offset base) = offset + base.
Proof.
  intros H. unfold asdu.InfoObjAddr_of_int, GoInt.add.
  rewrite wrap_id.
  - by apply to_uint_id.
  - unfold GoInt.is_int, GoInt.MinInt, GoInt.MaxInt, GoInt.intSize in *. lia.
Qed.

(* ===================================================================== *)
(** ** The command dispatcher *)
(* ===================================================================== *)

(** C1.  A telecontrol command on a connected client is two single-command
    messages on the same wire address [offset + 24577] with the same value:
    the select-phase message, a wait of 200 ms, the execute-phase message,
    all inside one critical section of the client's mutex and with nothing
    else in between.  If the transport refuses the select-phase message, the
    command stops there and returns that failure with the select context;
    if it refuses the execute-phase message, the failure is returned with
    the execute context.  The client itself is left as it was. *)
Theorem SendTelecontrol_select_then_execute :
  forall (offset : Z) (v : bool) (w : World.t) (s : cs104.ClientRef),
    IEC104Client.Connected (World.c w) = true ->
    IEC104Client.client (World.c w) = Some s ->
    let ioa := asdu.InfoObjAddr_of_int (GoInt.add offset 24577) in
    let sel := select_phase s ioa v in
    let exe := execute_phase s ioa v in
    let r1 := Env.Send (World.env w) (World.calls w) sel in
    let r2 := Env.Send (World.env w) (S (World.calls w)) exe in
    (0 <= offset + 24577 <= GoInt.MaxInt -> ioa = offset + 24577) /\
    exists w' : World.t,
      SendTelecontrol offset v w =
        Return (match r1 with
                | Some _ => with_context "send Select Command error: " r1
                | None => with_context "send Telecontrol Command error: " r2
                end) w' /\
      World.c w' = World.c w /\
      World.sessions w' = World.sessions w /\
      World.trace w' =
        World.trace w ++
          match r1 with
          | Some _ => [EvLock; EvTransport sel r1; EvUnlock]
          | None =>
              [EvLock; EvTransport sel None;
               EvSleep (time.Millisecond * 200);
               EvTransport exe r2; EvUnlock]
          end.
Proof.
  intros offset v w s Hconn Hcli ioa sel exe r1 r2.
  split; [intros Hr; by apply ioa_of_offset|].
  subst r1 r2 sel exe ioa.
  destruct w as [c ss e n tr]; destruct c; simpl in Hconn, Hcli; subst.
  run_go. unfold select_phase, execute_phase.
  destruct (Env.Send e n _) as [e1|]; simpl;
    [| destruct (Env.Send e (S n) _) as [e2|]; simpl];
    (eexists; split; [reflexivity|]; simpl;
     rewrite <- ?app_assoc; simpl; done).
Qed.

(** C1, at offset 5 with value [true], on a transport that accepts. *)
Lemma SendTelecontrol_select_then_execute_witness :
  exists w' : World.t,
    SendTelecontrol 5 true (connected_world quiet_env) = Return None w' /\
    World.trace w' =
      World.trace (connected_world quiet_env) ++
        [EvLock; EvTransport (select_phase 0%nat 24582 true) None;
         EvSleep 200000000;
         EvTransport (execute_phase 0%nat 24582 true) None; EvUnlock].
Proof.
  destruct (SendTelecontrol_select_then_execute 5 true
              (connected_world quiet_env) 0%nat eq_refl eq_refl)
    as [_ [w' [Hr [_ [_ Ht]]]]].
  exists w'. split; [exact Hr | exact Ht].
Defined.

(** The narrowing conversion at work: the [float64] nearest to one tenth
    becomes the [float32] nearest to one tenth, [13421773 * 2^-27]. *)
Example to_float32_tenth :
  GoFloat.to_float32 (S754_finite false 7205759403792794 (-56)) =
  S754_finite false 13421773 (-27).
Proof. vm_compute. reflexivity. Qed.

(** A value of the short format survives the round trip through [float64]. *)
Example of_float32_tenth :
  GoFloat.to_float32 (GoFloat.of_float32 (S754_finite false 13421773 (-27))) =
  S754_finite false 13421773 (-27).
Proof. vm_compute. reflexivity. Qed.

(** C2.  A setpoint command on a connected client is exactly one
    setpoint-command message, on the wire address [offset + 25089], carrying
    the value narrowed to [float32], with no select qualifier and no
    single-command message; a refusal of the transport is returned with the
    telemetry context. *)
Theorem SendTelemetry_one_setpoint :
  forall (offset : Z) (v : GoFloat.float64) (w : World.t) (s : cs104.ClientRef),
    IEC104Client.Connected (World.c w) = true ->
    IEC104Client.client (World.c w) = Some s ->
    let ioa := asdu.InfoObjAddr_of_int (GoInt.add offset 25089) in
    let msg := setpoint_message s ioa (GoFloat.to_float32 v) in
    let r := Env.Send (World.env w) (World.calls w) msg in
    (0 <= offset + 25089 <= GoInt.MaxInt -> ioa = offset + 25089) /\
    exists w' : World.t,
      SendTelemetry offset v w =
        Return (with_context "send Telemetry Command error: " r) w' /\
      World.c w' = World.c w /\
      World.sessions w' = World.sessions w /\
      World.trace w' = World.trace w ++ [EvLock; EvTransport msg r; EvUnlock].
Proof.
  intros offset v w s Hconn Hcli ioa msg r.
  split; [intros Hr; by apply ioa_of_offset|].
  subst r msg ioa.
  destruct w as [c ss e n tr]; destruct c; simpl in Hconn, Hcli; subst.
  run_go. unfold setpoint_message.
  destruct (Env.Send e n _) as [e1|]; simpl;
    (eexists; split; [reflexivity|]; simpl;
     rewrite <- ?app_assoc; simpl; done).
Qed.

(** C2, at offset 3 with the value one tenth. *)
Lemma SendTelemetry_one_setpoint_witness :
  exists w' : World.t,
    SendTelemetry 3 (S754_finite false 7205759403792794 (-56))
      (connected_world quiet_env) = Return None w' /\
    World.trace w' =
      World.trace (connected_world quiet_env) ++
        [EvLock;
         EvTransport
           (setpoint_message 0%nat 25092 (S754_finite false 13421773 (-27)))
           None;
         EvUnlock].
Proof.
  destruct (SendTelemetry_one_setpoint 3
              (S754_finite false 7205759403792794 (-56))
              (connected_world quiet_env) 0%nat eq_refl eq_refl)
    as [_ [w' [Hr [_ [_ Ht]]]]].
  exists w'. split; [exact Hr | exact Ht].
Defined.

(** C3.  While the connected flag is down, or before any session exists,
    both send operations return [ErrorNoConnection] and leave the world as
    it was: no call into the transport, no event, no change of the client. *)
Theorem send_without_connection :
  forall (offset : Z) (vb : bool) (vf : GoFloat.float64) (w : World.t),
    IEC104Client.Connected (World.c w) = false \/
    IEC104Client.client (World.c w) = None ->
    SendTelecontrol offset vb w = Return (Some ErrorNoConnection) w /\
    SendTelemetry offset vf w = Return (Some ErrorNoConnection) w.
Proof.
  intros offset vb vf w H.
  destruct w as [c ss e n tr]; destruct c as [cl ? ? ? ? ? ? ? conn ? ? ? ?].
  simpl in H. run_go.
  destruct H as [-> | ->]; simpl.
  - done.
  - by destruct conn.
Qed.

(** C3, on a client fresh from its constructor, and on a client whose
    session has been lost. *)
Lemma send_without_connection_witness :
  (SendTelecontrol 5 true (initial_world quiet_env "127.0.0.1" 2404 1) =
     Return (Some ErrorNoConnection) (initial_world quiet_env "127.0.0.1" 2404 1) /\
   SendTelemetry 5 (S754_zero false) (initial_world quiet_env "127.0.0.1" 2404 1) =
     Return (Some ErrorNoConnection) (initial_world quiet_env "127.0.0.1" 2404 1)) /\
  (let w := world_of (exec (OpConnectionLost 0%nat) (connected_world quiet_env)) in
   SendTelecontrol 5 true w = Return (Some ErrorNoConnection) w /\
   SendTelemetry 5 (S754_zero false) w = Return (Some ErrorNoConnection) w).
Proof.
  split.
  - apply (send_without_connection 5 true (S754_zero false)
             (initial_world quiet_env "127.0.0.1" 2404 1)).
    left. reflexivity.
  - apply (send_without_connection 5 true (S754_zero false)
             (world_of (exec (OpConnectionLost 0%nat) (connected_world quiet_env)))).
    left. reflexivity.
Defined.

(* ===================================================================== *)
(** ** The ingestion handler *)
(* ===================================================================== *)

(** What one loop of the handler does, for any way [f] of reading a point
    off a record. *)
Lemma range_store_Telemetry {A} (f : A -> Point GoFloat.float64)
  (data : list A) (w : World.t) :
  range data (fun d =>
    let '(ioa, t, v) := f d in
    store_Telemetry (GoInt.of_uint ioa) (telemetryPoint ioa t v) ;;;
    call_dataHandler Telemetry (GoInt.of_uint ioa) (VFloat v)) w =
  Return tt
    (World.set_trace
       (World.trace w ++
          match IEC104Client.dataHandler (World.c w) with
          | Some h =>
              map (fun '(ioa, _, v) =>
                     EvData h Telemetry (GoInt.of_uint ioa) (VFloat v))
                (map f data)
          | None => []
          end)
       (World.set_c
          (IEC104Client.set_Telemetry
             (store_floats (map f data) (IEC104Client.Telemetry (World.c w)))
             (World.c w)) w)).
Proof.
  revert w. induction data as [|d data IH]; intros w.
  - destruct w as [c ss e n tr]; destruct c. simpl. unfold ret.
    unfold World.set_trace, World.set_c, IEC104Client.set_Telemetry,
      store_floats, store_all. simpl.
    by destruct dataHandler; rewrite app_nil_r.
  - change (map f (d :: data)) with (f d :: map f data).
    simpl. unfold bind at 1.
    destruct (f d) as [[ioa t] v] eqn:Efd.
    destruct w as [c ss e n tr]; destruct c.
    unfold store_Telemetry, call_dataHandler, bind, modc, getc, emit, ret.
    simpl. destruct dataHandler as [h|]; simpl.
    + rewrite IH. simpl. unfold World.set_trace, World.set_c. simpl.
      by rewrite <- app_assoc.
    + rewrite IH. simpl. unfold World.set_trace, World.set_c. by simpl.
Qed.

Lemma range_store_Teleindication {A} (f : A -> Point bool)
  (data : list A) (w : World.t) :
  range data (fun d =>
    let '(ioa, t, v) := f d in
    store_Teleindication (GoInt.of_uint ioa) (teleindPoint ioa t v) ;;;
    call_dataHandler Teleindication (GoInt.of_uint ioa) (VBool v)) w =
  Return tt
    (World.set_trace
       (World.trace w ++
          match IEC104Client.dataHandler (World.c w) with
          | Some h =>
              map (fun '(ioa, _, v) =>
                     EvData h Teleindication (GoInt.of_uint ioa) (VBool v))
                (map f data)
          | None => []
          end)
       (World.set_c
          (IEC104Client.set_Teleindication
             (store_bools (map f data) (IEC104Client.Teleindication (World.c w)))
             (World.c w)) w)).
Proof.
  revert w. induction data as [|d data IH]; intros w.
  - destruct w as [c ss e n tr]; destruct c. simpl. unfold ret.
    unfold World.set_trace, World.set_c, IEC104Client.set_Teleindication,
      store_bools, store_all. simpl.
    by destruct dataHandler; rewrite app_nil_r.
  - change (map f (d :: data)) with (f d :: map f data).
    simpl. unfold bind at 1.
    destruct (f d) as [[ioa t] v] eqn:Efd.
    destruct w as [c ss e n tr]; destruct c.
    unfold store_Teleindication, call_dataHandler, bind, modc, getc, emit, ret.
    simpl. destruct dataHandler as [h|]; simpl.
    + rewrite IH. simpl. unfold World.set_trace, World.set_c. simpl.
      by rewrite <- app_assoc.
    + rewrite IH. simpl. unfold World.set_trace, World.set_c. by simpl.
Qed.

(** The five type identifications the handler names are distinct, so the
    order in which it tests them plays no part. *)
Lemma kind_of_cases (t : asdu.TypeID) :
  (t = asdu.M_ME_NC_1 /\ kind_of t = ShortFloat) \/
  (t = asdu.M_ME_NA_1 /\ kind_of t = Normalized) \/
  (t = asdu.M_ME_ND_1 /\ kind_of t = Normalized) \/
  (t = asdu.M_ME_NB_1 /\ kind_of t = Scaled) \/
  (t = asdu.M_SP_NA_1 /\ kind_of t = SinglePoint) \/
  (t <> asdu.M_ME_NC_1 /\ t <> asdu.M_ME_NA_1 /\ t <> asdu.M_ME_ND_1 /\
   t <> asdu.M_ME_NB_1 /\ t <> asdu.M_SP_NA_1 /\ kind_of t = OtherKind).
Proof.
  unfold kind_of.
  destruct (Z.eqb_spec t asdu.M_ME_NC_1); [by left|].
  destruct (Z.eqb_spec t asdu.M_ME_NA_1); [by right; left|].
  destruct (Z.eqb_spec t asdu.M_ME_ND_1); [by right; right; left|].
  destruct (Z.eqb_spec t asdu.M_ME_NB_1); [by right; right; right; left|].
  destruct (Z.eqb_spec t asdu.M_SP_NA_1); [by right; right; right; right; left|].
  by right; right; right; right; right.
Qed.

Lemma ASDUHandler_dispatched (a : asdu.ASDU.t) (w : World.t) :
  asdu.ASDU.CommonAddr a =
    asdu.CommonAddr_of_int (IEC104Client.commonAddr (World.c w)) ->
  ASDUHandler a w = dispatched a w.
Proof.
  destruct a as [t ca fl no sp sc]. intros Hca.
  cbn [asdu.ASDU.CommonAddr] in Hca. subst ca.
  unfold ASDUHandler, dispatched, ingest, notifications, decoded_floats,
    decoded_bools.
  unfold bind at 1. unfold getc at 1.
  cbn [asdu.ASDU.Type_ asdu.ASDU.CommonAddr asdu.ASDU.GetMeasuredValueFloat
       asdu.ASDU.GetMeasuredValueNormal asdu.ASDU.GetSinglePoint
       asdu.ASDU.GetMeasuredValueScaled].
  rewrite Z.eqb_refl. cbn [negb]. cbv zeta.
  unfold bind at 1.
  destruct (kind_of_cases t)
    as [[-> ->]|[[-> ->]|[[-> ->]|[[-> ->]|[[-> ->]|(?&?&?&?&?&->)]]]]].
  - change (asdu.M_ME_NC_1 =? asdu.M_ME_NC_1) with true. cbv iota.
    rewrite (range_store_Telemetry
               (fun d => (asdu.MeasuredValueFloatInfo.Ioa d,
                          asdu.MeasuredValueFloatInfo.Time d,
                          GoFloat.of_float32 (asdu.MeasuredValueFloatInfo.Value d)))).
    unfold ret. destruct w as [c ss e n tr]; destruct c.
    simpl. by destruct dataHandler; rewrite ?app_nil_r.
  - change (asdu.M_ME_NA_1 =? asdu.M_ME_NC_1) with false.
    change (asdu.M_ME_NA_1 =? asdu.M_ME_NA_1) with true. cbn [orb]. cbv iota.
    rewrite (range_store_Telemetry
               (fun d => (asdu.MeasuredValueNormalInfo.Ioa d,
                          asdu.MeasuredValueNormalInfo.Time d,
                          GoFloat.of_int16 (asdu.MeasuredValueNormalInfo.Value d)))).
    unfold ret. destruct w as [c ss e n tr]; destruct c.
    simpl. by destruct dataHandler; rewrite ?app_nil_r.
  - change (asdu.M_ME_ND_1 =? asdu.M_ME_NC_1) with false.
    change (asdu.M_ME_ND_1 =? asdu.M_ME_NA_1) with false.
    change (asdu.M_ME_ND_1 =? asdu.M_ME_ND_1) with true. cbn [orb]. cbv iota.
    rewrite (range_store_Telemetry
               (fun d => (asdu.MeasuredValueNormalInfo.Ioa d,
                          asdu.MeasuredValueNormalInfo.Time d,
                          GoFloat.of_int16 (asdu.MeasuredValueNormalInfo.Value d)))).
    unfold ret. destruct w as [c ss e n tr]; destruct c.
    simpl. by destruct dataHandler; rewrite ?app_nil_r.
  - change (asdu.M_ME_NB_1 =? asdu.M_ME_NC_1) with false.
    change (asdu.M_ME_NB_1 =? asdu.M_ME_NA_1) with false.
    change (asdu.M_ME_NB_1 =? asdu.M_ME_ND_1) with false.
    change (asdu.M_ME_NB_1 =? asdu.M_SP_NA_1) with false.
    change (asdu.M_ME_NB_1 =? asdu.M_ME_NB_1) with true. cbn [orb]. cbv iota.
    rewrite (range_store_Telemetry
               (fun d => (asdu.MeasuredValueScaledInfo.Ioa d,
                          asdu.MeasuredValueScaledInfo.Time d,
                          GoFloat.of_int16 (asdu.MeasuredValueScaledInfo.Value d)))).
    unfold ret. destruct w as [c ss e n tr]; destruct c.
    simpl. by destruct dataHandler; rewrite ?app_nil_r.
  - change (asdu.M_SP_NA_1 =? asdu.M_ME_NC_1) with false.
    change (asdu.M_SP_NA_1 =? asdu.M_ME_NA_1) with false.
    change (asdu.M_SP_NA_1 =? asdu.M_ME_ND_1) with false.
    change (asdu.M_SP_NA_1 =? asdu.M_SP_NA_1) with true. cbn [orb]. cbv iota.
    rewrite (range_store_Teleindication
               (fun d => (asdu.SinglePointInfo.Ioa d,
                          asdu.SinglePointInfo.Time d,
                          asdu.SinglePointInfo.Value d))).
    unfold ret. destruct w as [c ss e n tr]; destruct c.
    simpl. by destruct dataHandler; rewrite ?app_nil_r.
  - rewrite !(proj2 (Z.eqb_neq _ _)) by done. cbn [orb]. cbv iota.
    unfold Logger_Debugf, Logger_log, bind, getc, emit, ret, panic.
    by destruct (IEC104Client.Logger (World.c w)).
Qed.

Section StoreAll.
Context {A V : Type}.
Variables (key : A -> Z) (val : A -> V).

Lemma store_all_snoc (xs : list A) (x : A) (m : gmap Z V) :
  store_all key val (xs ++ [x]) m = <[key x := val x]> (store_all key val xs m).
Proof. unfold store_all. by rewrite foldl_app. Qed.

(** A key no element has keeps its entry. *)
Lemma store_all_other (k : Z) (xs : list A) (m : gmap Z V) :
  (forall x, x ∈ xs -> key x <> k) ->
  store_all key val xs m !! k = m !! k.
Proof.
  induction xs as [|x xs IH] using rev_ind; intros H; [done|].
  rewrite store_all_snoc, lookup_insert_ne.
  - apply IH. intros y Hy. apply H. apply elem_of_app. by left.
  - apply H. apply elem_of_app. right. by apply list_elem_of_singleton.
Qed.

(** Every entry of the result is an old entry or the value of an element,
    under that element's key. *)
Lemma store_all_lookup (k : Z) (p : V) (xs : list A) (m : gmap Z V) :
  store_all key val xs m !! k = Some p ->
  m !! k = Some p \/ exists x, x ∈ xs /\ key x = k /\ val x = p.
Proof.
  induction xs as [|x xs IH] using rev_ind; intros H; [by left|].
  rewrite store_all_snoc in H.
  destruct (decide (key x = k)) as [<-|Hne].
  - rewrite lookup_insert_eq in H. injection H as <-.
    right. exists x.
    split; [apply elem_of_app; right; by apply list_elem_of_singleton|done].
  - rewrite lookup_insert_ne in H by done.
    destruct (IH H) as [?|(y & Hy & Hk & Hv)]; [by left|].
    right. exists y. split; [apply elem_of_app; by left|done].
Qed.

(** Every element leaves an entry under its key: the value of the last
    element with that key. *)
Lemma store_all_present (x : A) (xs : list A) (m : gmap Z V) :
  x ∈ xs ->
  exists y, y ∈ xs /\ key y = key x /\
            store_all key val xs m !! key x = Some (val y).
Proof.
  induction xs as [|z xs IH] using rev_ind; intros H; [by apply elem_of_nil in H|].
  rewrite store_all_snoc.
  destruct (decide (key z = key x)) as [E|Hne].
  - exists z. rewrite <- E, lookup_insert_eq.
    split; [apply elem_of_app; right; by apply list_elem_of_singleton|done].
  - rewrite lookup_insert_ne by done.
    assert (x ∈ xs) as Hx.
    { apply elem_of_app in H as [?|Hz]; [done|].
      apply list_elem_of_singleton in Hz. congruence. }
    destruct (IH Hx) as (y & Hy & Hk & Hl). exists y.
    split; [apply elem_of_app; by left|done].
Qed.

End StoreAll.

Lemma notifications_told (h : option HandlerRef) (a : asdu.ASDU.t) :
  notifications h a =
  told h notify_float (decoded_floats a) ++ told h notify_bool (decoded_bools a).
Proof.
  destruct h as [h|]; [|done]. unfold notifications, told.
  f_equal; apply map_ext; by intros [[? ?] ?].
Qed.

Lemma decoded_bools_measured (a : asdu.ASDU.t) :
  kind_of (asdu.ASDU.Type_ a) <> SinglePoint -> decoded_bools a = [].
Proof. unfold decoded_bools. by destruct (kind_of _). Qed.

Lemma decoded_floats_single (a : asdu.ASDU.t) :
  kind_of (asdu.ASDU.Type_ a) = SinglePoint -> decoded_floats a = [].
Proof. unfold decoded_floats. by intros ->. Qed.

(** C4.  On a message of the configured station the handler dispatches on
    the type identification.  A short floating point, normalized or scaled
    measured value message has every point decoded to a [float64] and stored
    in the telemetry table under its wire address, with one
    [(Telemetry, address, value)] call of the data handler per point, in
    the order of the message, if a handler is registered.  A single-point
    message does the same with booleans, the teleindication table and
    [(Teleindication, address, value)].  Any other message changes no table,
    notifies nobody and returns no error: it is logged at debug level
    through the client's logger (the interface value must have been set:
    calling it while [nil] panics, still with no table changed). *)
Theorem ASDUHandler_dispatch_by_kind :
  forall (a : asdu.ASDU.t) (w : World.t),
    asdu.ASDU.CommonAddr a =
      asdu.CommonAddr_of_int (IEC104Client.commonAddr (World.c w)) ->
    let c := World.c w in
    match kind_of (asdu.ASDU.Type_ a) with
    | ShortFloat | Normalized | Scaled =>
        exists w' : World.t,
          ASDUHandler a w = Return None w' /\
          IEC104Client.Telemetry (World.c w') =
            store_floats (decoded_floats a) (IEC104Client.Telemetry c) /\
          IEC104Client.Teleindication (World.c w') = IEC104Client.Teleindication c /\
          IEC104Client.Telecontrol (World.c w') = IEC104Client.Telecontrol c /\
          IEC104Client.Teleregulation (World.c w') = IEC104Client.Teleregulation c /\
          World.trace w' =
            World.trace w ++
              told (IEC104Client.dataHandler c) notify_float (decoded_floats a)
    | SinglePoint =>
        exists w' : World.t,
          ASDUHandler a w = Return None w' /\
          IEC104Client.Teleindication (World.c w') =
            store_bools (decoded_bools a) (IEC104Client.Teleindication c) /\
          IEC104Client.Telemetry (World.c w') = IEC104Client.Telemetry c /\
          IEC104Client.Telecontrol (World.c w') = IEC104Client.Telecontrol c /\
          IEC104Client.Teleregulation (World.c w') = IEC104Client.Teleregulation c /\
          World.trace w' =
            World.trace w ++
              told (IEC104Client.dataHandler c) notify_bool (decoded_bools a)
    | OtherKind =>
        World.c (world_of (ASDUHandler a w)) = c /\
        match IEC104Client.Logger c with
        | Some l =>
            ASDUHandler a w =
              Return None
                (World.set_trace
                   (World.trace w ++
                      [EvLog l LevelDebug "Invalid ASDU type: %s"
                         [ATypeID (asdu.ASDU.Type_ a)]]) w)
        | None => ASDUHandler a w = Panicked nilDereference w
        end
    end.
Proof.
  intros a w Hca c. rewrite (ASDUHandler_dispatched a w Hca).
  unfold dispatched. subst c. rewrite notifications_told. unfold ingest.
  destruct (kind_of (asdu.ASDU.Type_ a)) eqn:K.
  1-3: rewrite decoded_bools_measured by (rewrite K; discriminate);
       eexists; split; [reflexivity|];
       destruct w as [c ss e n tr]; destruct c; simpl;
       destruct dataHandler; simpl; by rewrite ?app_nil_r.
  - rewrite (decoded_floats_single a K).
    eexists; split; [reflexivity|].
    destruct w as [c ss e n tr]; destruct c; simpl.
    by destruct dataHandler.
  - destruct (IEC104Client.Logger (World.c w)); by destruct w.
Qed.

(** C4, on the two messages: the first fills the telemetry table at 100 and
    101 and tells the data handler twice; the second is logged and dropped. *)
Lemma ASDUHandler_dispatch_by_kind_witness :
  (exists w' : World.t,
     ASDUHandler float_message (connected_world quiet_env) = Return None w' /\
     IEC104Client.Telemetry (World.c w') !! 100 =
       Some (TelemetryPoint.mk (DataPoint.mk 100 "" 7)
               (GoFloat.of_float32 (S754_finite false 13421773 (-27)))) /\
     IEC104Client.Telemetry (World.c w') !! 101 =
       Some (TelemetryPoint.mk (DataPoint.mk 101 "" 8) (S754_zero false)) /\
     World.trace w' =
       World.trace (connected_world quiet_env) ++
         [EvData 2%nat Telemetry 100
            (VFloat (GoFloat.of_float32 (S754_finite false 13421773 (-27))));
          EvData 2%nat Telemetry 101 (VFloat (S754_zero false))]) /\
  ASDUHandler tagged_message (connected_world quiet_env) =
    Return None
      (World.set_trace
         (World.trace (connected_world quiet_env) ++
            [EvLog 0%nat LevelDebug "Invalid ASDU type: %s" [ATypeID 30]])
         (connected_world quiet_env)).
Proof.
  split.
  - pose proof (ASDUHandler_dispatch_by_kind float_message
                  (connected_world quiet_env) eq_refl) as H.
    cbv zeta in H.
    change (kind_of (asdu.ASDU.Type_ float_message)) with ShortFloat in H.
    cbv iota in H.
    destruct H as [w' (Hr & Ht & _ & _ & _ & Htr)].
    exists w'. split; [exact Hr|].
    split; [rewrite Ht; reflexivity|].
    split; [rewrite Ht; reflexivity|].
    rewrite Htr. reflexivity.
  - pose proof (ASDUHandler_dispatch_by_kind tagged_message
                  (connected_world quiet_env) eq_refl) as H.
    cbv zeta in H.
    change (kind_of (asdu.ASDU.Type_ tagged_message)) with OtherKind in H.
    cbv iota in H.
    exact (proj2 H).
Defined.

(** C5.  A message whose common address is not the configured one (as the
    handler compares them: the configured [int] converted to the 16 bits of
    a common address) is dropped whole, whatever its type and however many
    points it carries: the handler returns [nil] and the world is as it
    was, with no entry of any of the four tables changed and no handler
    called. *)
Theorem ASDUHandler_other_station :
  forall (a : asdu.ASDU.t) (w : World.t),
    asdu.ASDU.CommonAddr a <>
      asdu.CommonAddr_of_int (IEC104Client.commonAddr (World.c w)) ->
    ASDUHandler a w = Return None w.
Proof.
  intros a w Hca. unfold ASDUHandler. unfold bind at 1. unfold getc at 1.
  by rewrite (proj2 (Z.eqb_neq _ _) Hca).
Qed.

(** For a configured common address that is one, [0 .. 65535], the
    conversion does nothing: a message with any other common address is
    dropped. *)
Lemma ASDUHandler_other_station_in_range (a : asdu.ASDU.t) (w : World.t) :
  0 <= IEC104Client.commonAddr (World.c w) < 65536 ->
  asdu.ASDU.CommonAddr a <> IEC104Client.commonAddr (World.c w) ->
  ASDUHandler a w = Return None w.
Proof.
  intros Hr Hne. unfold ASDUHandler. unfold bind at 1. unfold getc at 1.
  unfold asdu.CommonAddr_of_int. rewrite to_uint16_id by done.
  by rewrite (proj2 (Z.eqb_neq _ _) Hne).
Qed.

(** C5, on a client configured for station 1. *)
Lemma ASDUHandler_other_station_witness :
  ASDUHandler foreign_message (connected_world quiet_env) =
  Return None (connected_world quiet_env).
Proof.
  apply (ASDUHandler_other_station foreign_message (connected_world quiet_env)).
  vm_compute. discriminate.
Defined.

(* ===================================================================== *)
(** ** The connection manager *)
(* ===================================================================== *)

(** [Disconnect] never panics and never returns an error. *)
Lemma Disconnect_returns (w : World.t) :
  exists w1 : World.t,
    Disconnect w = Return None w1 /\
    (IEC104Client.Connected (World.c w) = false \/
     IEC104Client.client (World.c w) = None -> w1 = w) /\
    (forall s,
       IEC104Client.Connected (World.c w) = true ->
       IEC104Client.client (World.c w) = Some s ->
       IEC104Client.Connected (World.c w1) = false /\
       IEC104Client.client (World.c w1) = Some s /\
       World.trace w1 = World.trace w ++ [EvLock; EvSessionClose s; EvUnlock]).
Proof.
  destruct w as [c ss e n tr];
    destruct c as [cl ? ? ? ? ? ? ? conn ? ? ? ?].
  run_go. destruct conn, cl as [s|]; simpl;
    (eexists; split; [reflexivity|]; split;
     [intros [?|?]; done || discriminate | intros s0 ? ?; try discriminate]).
  simplify_eq. repeat split. by rewrite <- !app_assoc.
Qed.

(** What a successful [Connect] sets up: a new session, configured to
    reconnect on its own every five seconds, and started. *)
Lemma Connect_new_session (w : World.t) :
  IEC104Client.Connected (World.c w) = false ->
  Env.AddRemoteServer (World.env w)
    (Sprintf_s_d (IEC104Client.serverIP (World.c w))
       (IEC104Client.serverPort (World.c w))) = None ->
  Env.Start (World.env w) (length (World.sessions w)) = None ->
  exists w1 : World.t,
    Connect w = Return None w1 /\
    IEC104Client.client (World.c w1) = Some (length (World.sessions w)) /\
    IEC104Client.Connected (World.c w1) = false /\
    World.sessions w1 =
      World.sessions w ++
        [cs104.Client.mk
           (cs104.ClientOption.mk true (5 * time.Second)
              (Some (Sprintf_s_d (IEC104Client.serverIP (World.c w))
                       (IEC104Client.serverPort (World.c w)))))
           false true true true false].
Proof.
  destruct w as [c ss e n tr];
    destruct c as [cl ip port ? ? ? ? ? conn ? ? ? ?].
  simpl. intros -> Hadd Hstart.
  unfold Connect, AddRemoteServer, NewClient, Client_LogMode,
    Client_SetOnConnectHandler, Client_SetConnectionLostHandler, Client_Start,
    modsession. run_go. rewrite Hadd. simpl.
  rewrite !alter_app_r_alt by lia. rewrite Nat.sub_diag. simpl.
  rewrite Hstart. simpl.
  eexists. split; [reflexivity|]. simpl. by repeat split.
Qed.

(** C8.  [Connect] on a connected client returns [nil] and leaves the world
    as it was: no new session object, no call on the transport, no
    notification.  [Disconnect] always returns [nil]; without a session it
    leaves the world as it was; and after any [Disconnect] a second one does
    so too: no second close of the session, no notification. *)
Theorem Connect_Disconnect_idempotent :
  forall w : World.t,
    (IEC104Client.Connected (World.c w) = true -> Connect w = Return None w) /\
    (IEC104Client.client (World.c w) = None -> Disconnect w = Return None w) /\
    exists w1 : World.t,
      Disconnect w = Return None w1 /\ Disconnect w1 = Return None w1.
Proof.
  intros w. split; [|split].
  - intros H. unfold Connect. unfold bind at 1. unfold getc at 1.
    by rewrite H.
  - intros H. destruct (Disconnect_returns w) as [w1 (Hr & Hid & _)].
    rewrite Hr, Hid; [done | by right].
  - destruct (Disconnect_returns w) as [w1 (Hr & Hid & Hcl)].
    exists w1. split; [done|].
    destruct (Disconnect_returns w1) as [w2 (Hr2 & Hid2 & _)].
    rewrite Hr2. f_equal. apply Hid2.
    destruct (IEC104Client.Connected (World.c w)) eqn:Hc;
      [destruct (IEC104Client.client (World.c w)) as [s|] eqn:Hs|].
    + left. by destruct (Hcl s eq_refl eq_refl) as [? _].
    + right. rewrite Hid; [done | by right].
    + left. rewrite Hid; [done | by left].
Qed.

(** C8, on the connected client: a second [Connect] changes nothing, the
    first [Disconnect] closes session 0, a second one changes nothing. *)
Lemma Connect_Disconnect_idempotent_witness :
  Connect (connected_world quiet_env) = Return None (connected_world quiet_env) /\
  exists w1 : World.t,
    Disconnect (connected_world quiet_env) = Return None w1 /\
    Disconnect w1 = Return None w1.
Proof.
  destruct (Connect_Disconnect_idempotent (connected_world quiet_env))
    as (Hc & _ & Hd).
  split; [exact (Hc eq_refl) | exact Hd].
Defined.

(** C9.  The first [Close] closes the stop channel and then does what
    [Disconnect] does; a scheduler whose [select] then takes the stop case
    leaves its loop.  A [Close] on a client whose stop channel is closed
    panics with the runtime's "close of closed channel", before anything
    else happens; so a second [Close] always panics. *)
Theorem Close_twice_panics :
  forall w : World.t,
    (IEC104Client.closer (World.c w) = true ->
     Close w = Panicked closeOfClosedChannel w) /\
    (IEC104Client.closer (World.c w) = false ->
     exists w1 : World.t,
       Close w = Return tt w1 /\
       IEC104Client.closer (World.c w1) = true /\
       Disconnect (World.set_c (IEC104Client.set_closer true (World.c w)) w) =
         Return None w1 /\
       (forall callInterval rest,
          run_loop callInterval (([], CloserC) :: rest) w1 =
            Return Exited
              (World.set_trace (World.trace w1 ++ [EvCloserFired]) w1)) /\
       Close w1 = Panicked closeOfClosedChannel w1).
Proof.
  intros w.
  assert (forall w0, IEC104Client.closer (World.c w0) = true ->
                     Close w0 = Panicked closeOfClosedChannel w0) as Hpanic.
  { intros w0 H. unfold Close, close_closer, bind, getc. by rewrite H. }
  split; [apply Hpanic|]. intros Hopen.
  destruct (Disconnect_returns
              (World.set_c (IEC104Client.set_closer true (World.c w)) w))
    as [w1 (Hr & Hid & Hcl)].
  assert (IEC104Client.closer (World.c w1) = true) as Hclosed.
  { revert Hr. destruct w as [c ss e n tr];
      destruct c as [cl ? ? ? ? ? ? ? conn ? ? ? ?].
    run_go. destruct conn, cl; simpl; intros [= <-]; done. }
  exists w1. split; [|split; [done|split; [done|split]]].
  - unfold Close, close_closer. unfold bind at 1 2. unfold getc at 1.
    rewrite Hopen. unfold modc at 1. unfold bind at 1. by rewrite Hr.
  - intros callInterval rest. simpl. unfold select.
    unfold bind, getc, ret, emit. by rewrite Hclosed.
  - by apply Hpanic.
Qed.

(** C9, on the connected client. *)
Lemma Close_twice_panics_witness :
  exists w1 : World.t,
    Close (connected_world quiet_env) = Return tt w1 /\
    IEC104Client.closer (World.c w1) = true /\
    Close w1 = Panicked closeOfClosedChannel w1.
Proof.
  destruct (proj2 (Close_twice_panics (connected_world quiet_env)) eq_refl)
    as [w1 (H1 & H2 & _ & _ & H3)].
  exists w1. split; [exact H1 | split; [exact H2 | exact H3]].
Defined.

(** C10.  When the connected flag is down while a session exists,
    [Disconnect] returns [nil] and leaves the world as it was: the session
    is not closed, so a session that [Connect] started (reconnecting on its
    own every five seconds) goes on; the session pointer, the session's
    options and the four tables are what they were. *)
Theorem Disconnect_after_connection_lost :
  forall (w : World.t) (s : cs104.ClientRef),
    IEC104Client.Connected (World.c w) = false ->
    IEC104Client.client (World.c w) = Some s ->
    Disconnect w = Return None w /\
    let w1 := world_of (Disconnect w) in
    World.sessions w1 = World.sessions w /\
    IEC104Client.client (World.c w1) = Some s /\
    events_since w w1 = [] /\
    IEC104Client.Telemetry (World.c w1) = IEC104Client.Telemetry (World.c w) /\
    IEC104Client.Teleindication (World.c w1) =
      IEC104Client.Teleindication (World.c w) /\
    IEC104Client.Telecontrol (World.c w1) = IEC104Client.Telecontrol (World.c w) /\
    IEC104Client.Teleregulation (World.c w1) =
      IEC104Client.Teleregulation (World.c w).
Proof.
  intros w s Hconn Hcli.
  assert (Disconnect w = Return None w) as Hd.
  { destruct (Disconnect_returns w) as [w1 (Hr & Hid & _)].
    rewrite Hr, Hid; [done | by left]. }
  split; [done|]. rewrite Hd. simpl.
  repeat split; try done.
  unfold events_since. by rewrite drop_all.
Qed.

(** C10, on that client: the session stays open with its reconnect options,
    and when the transport reconnects it, the client is connected again
    although the caller has asked to disconnect. *)
Lemma Disconnect_after_connection_lost_witness :
  Disconnect lost_world = Return None lost_world /\
  World.sessions lost_world !! 0%nat =
    Some (cs104.Client.mk
            (cs104.ClientOption.mk true (5 * time.Second) (Some "127.0.0.1:2404"))
            false true true true false) /\
  IEC104Client.Connected
    (World.c (world_of (execs [OpDisconnect; OpOnConnect 0%nat] lost_world))) = true.
Proof.
  split; [|split; reflexivity].
  exact (proj1 (Disconnect_after_connection_lost lost_world 0%nat eq_refl eq_refl)).
Defined.

(* ===================================================================== *)
(** ** The keys of the four tables *)
(* ===================================================================== *)

(** The send operations never panic and never change the client: the
    tables are written by the ingestion handler and by the dialogs only. *)
Lemma SendTelecontrol_returns (offset : Z) (v : bool) (w : World.t) :
  exists r w1, SendTelecontrol offset v w = Return r w1 /\ World.c w1 = World.c w.
Proof.
  destruct w as [c ss e n tr];
    destruct c as [cl ? ? ? ? ? ? ? conn ? ? ? ?].
  run_go. destruct conn, cl as [s|]; simpl; try by eexists _, _.
  destruct (Env.Send e n _); simpl; [by eexists _, _|].
  destruct (Env.Send e (S n) _); simpl; by eexists _, _.
Qed.

Lemma SendTelemetry_returns (offset : Z) (v : GoFloat.float64) (w : World.t) :
  exists r w1, SendTelemetry offset v w = Return r w1 /\ World.c w1 = World.c w.
Proof.
  destruct w as [c ss e n tr];
    destruct c as [cl ? ? ? ? ? ? ? conn ? ? ? ?].
  run_go. destruct conn, cl as [s|]; simpl; try by eexists _, _.
  destruct (Env.Send e n _); simpl; by eexists _, _.
Qed.

(** The client after the handler has run, whatever the message. *)
Lemma ASDUHandler_client (a : asdu.ASDU.t) (w : World.t) :
  World.c (world_of (ASDUHandler a w)) =
  if asdu.ASDU.CommonAddr a =?
       asdu.CommonAddr_of_int (IEC104Client.commonAddr (World.c w))
  then ingest a (World.c w)
  else World.c w.
Proof.
  destruct (Z.eqb_spec (asdu.ASDU.CommonAddr a)
              (asdu.CommonAddr_of_int (IEC104Client.commonAddr (World.c w))))
    as [E|NE].
  - rewrite (ASDUHandler_dispatched a w E). unfold dispatched, ingest.
    destruct (kind_of (asdu.ASDU.Type_ a)) eqn:K; try done.
    unfold decoded_floats, decoded_bools. rewrite K.
    destruct (IEC104Client.Logger (World.c w));
      destruct w as [c ss e n tr]; by destruct c.
  - unfold ASDUHandler. unfold bind at 1. unfold getc at 1.
    by rewrite (proj2 (Z.eqb_neq _ _) NE).
Qed.

(** What the Send button of the telecontrol dialog leaves in the table:
    the echo under the offset if the command went out, nothing otherwise. *)
Lemma showTelecontrolDialog_Send_table (logger : LoggerRef) (row col : Z)
  (v : bool) (w : World.t) :
  exists r w1,
    SendTelecontrol (dialog_index row col) v w = Return r w1 /\
    World.c (world_of (showTelecontrolDialog_Send logger row col v w)) =
      match r with
      | None =>
          IEC104Client.set_Telecontrol
            (<[dialog_index row col := TelecontrolPoint.mk DataPoint.zero v]>
               (IEC104Client.Telecontrol (World.c w))) (World.c w)
      | Some _ => World.c w
      end.
Proof.
  destruct (SendTelecontrol_returns (dialog_index row col) v w)
    as (r & w1 & Hr & Hc).
  exists r, w1. split; [done|].
  unfold showTelecontrolDialog_Send. cbv zeta.
  unfold bind at 1 2. rewrite Hr.
  destruct r; unfold App_logger_Infof, bind, emit, modc; simpl; by rewrite Hc.
Qed.

Lemma showTeleregulationDialog_Send_table (logger : LoggerRef) (row col : Z)
  (v : GoFloat.float64) (w : World.t) :
  exists r w1,
    SendTelemetry (dialog_index row col) v w = Return r w1 /\
    World.c (world_of (showTeleregulationDialog_Send logger row col v w)) =
      match r with
      | None =>
          IEC104Client.set_Teleregulation
            (<[dialog_index row col := TeleregulationPoint.mk DataPoint.zero v]>
               (IEC104Client.Teleregulation (World.c w))) (World.c w)
      | Some _ => World.c w
      end.
Proof.
  destruct (SendTelemetry_returns (dialog_index row col) v w)
    as (r & w1 & Hr & Hc).
  exists r, w1. split; [done|].
  unfold showTeleregulationDialog_Send. cbv zeta.
  unfold bind at 1 2. rewrite Hr.
  destruct r; unfold App_logger_Infof, bind, emit, modc; simpl; by rewrite Hc.
Qed.

(** The offset the dialogs compute, for the rows and columns of the table. *)
Lemma dialog_index_in_table (row col : Z) :
  1 <= row <= 10 -> 1 <= col <= 10 ->
  dialog_index row col = (row - 1) * 10 + col - 1.
Proof.
  intros Hr Hc. unfold dialog_index, GoInt.sub, GoInt.add, GoInt.mul.
  assert (forall z, -1000 <= z <= 1000 -> GoInt.wrap z = z) as Hw.
  { intros z Hz. apply wrap_id.
    unfold GoInt.is_int, GoInt.MinInt, GoInt.MaxInt, GoInt.intSize. lia. }
  rewrite (Hw (row - 1)) by lia.
  rewrite (Hw ((row - 1) * 10)) by lia.
  rewrite (Hw ((row - 1) * 10 + col)) by lia.
  apply Hw. lia.
Qed.

Lemma ingest_Telemetry (a : asdu.ASDU.t) (c : IEC104Client.t) :
  IEC104Client.Telemetry (ingest a c) =
  store_floats (decoded_floats a) (IEC104Client.Telemetry c).
Proof. by destruct c. Qed.

Lemma ingest_Teleindication (a : asdu.ASDU.t) (c : IEC104Client.t) :
  IEC104Client.Teleindication (ingest a c) =
  store_bools (decoded_bools a) (IEC104Client.Teleindication c).
Proof. by destruct c. Qed.

(** The tables of the client after the handler has run, whatever the
    message: a message of another station stores nothing. *)
Lemma ASDUHandler_Telemetry (a : asdu.ASDU.t) (w : World.t) :
  IEC104Client.Telemetry (World.c (world_of (ASDUHandler a w))) =
  store_floats
    (if asdu.ASDU.CommonAddr a =?
          asdu.CommonAddr_of_int (IEC104Client.commonAddr (World.c w))
     then decoded_floats a else [])
    (IEC104Client.Telemetry (World.c w)).
Proof.
  rewrite ASDUHandler_client. destruct (_ =? _); [|done].
  apply ingest_Telemetry.
Qed.

Lemma ASDUHandler_Teleindication (a : asdu.ASDU.t) (w : World.t) :
  IEC104Client.Teleindication (World.c (world_of (ASDUHandler a w))) =
  store_bools
    (if asdu.ASDU.CommonAddr a =?
          asdu.CommonAddr_of_int (IEC104Client.commonAddr (World.c w))
     then decoded_bools a else [])
    (IEC104Client.Teleindication (World.c w)).
Proof.
  rewrite ASDUHandler_client. destruct (_ =? _); [|done].
  apply ingest_Teleindication.
Qed.

(** C7.  The keys of the inbound and of the outbound tables.

    Inbound: every entry of the telemetry and of the teleindication table
    after the handler has run is an entry that was there before or the
    point of the message stored under its own wire address (which the
    conversion to [int] leaves unchanged), with that address in its
    [Address] field; and every point of a message of the station has an
    entry under its wire address.

    Outbound: the Send button of the telecontrol (teleregulation) dialog
    stores its echo, once [SendTelecontrol] ([SendTelemetry]) has returned
    [nil], under the offset it passed to the send operation, and under no
    other key; the send operation itself has put [offset + 24577] on the
    wire.  For offset 5 and value [true] on a connected client the messages
    go to the wire address 24582 and the table holds [Telecontrol[5]] with
    value [true], and nothing at 24582. *)
Theorem table_keys_asymmetric :
  (forall (a : asdu.ASDU.t) (w : World.t) (k : Z) (p : TelemetryPoint.t),
     IEC104Client.Telemetry (World.c (world_of (ASDUHandler a w))) !! k = Some p ->
     IEC104Client.Telemetry (World.c w) !! k = Some p \/
     exists pt : Point GoFloat.float64,
       pt ∈ decoded_floats a /\ k = GoInt.of_uint pt.1.1 /\
       p = telemetryPoint pt.1.1 pt.1.2 pt.2 /\
       DataPoint.Address (TelemetryPoint.DataPoint p) = k) /\
  (forall (a : asdu.ASDU.t) (w : World.t) (k : Z) (p : TeleindPoint.t),
     IEC104Client.Teleindication (World.c (world_of (ASDUHandler a w))) !! k = Some p ->
     IEC104Client.Teleindication (World.c w) !! k = Some p \/
     exists pt : Point bool,
       pt ∈ decoded_bools a /\ k = GoInt.of_uint pt.1.1 /\
       p = teleindPoint pt.1.1 pt.1.2 pt.2 /\
       DataPoint.Address (TeleindPoint.DataPoint p) = k) /\
  (forall ioa : asdu.InfoObjAddr,
     0 <= ioa <= GoInt.MaxInt -> GoInt.of_uint ioa = ioa) /\
  (forall (a : asdu.ASDU.t) (w : World.t),
     asdu.ASDU.CommonAddr a =
       asdu.CommonAddr_of_int (IEC104Client.commonAddr (World.c w)) ->
     (forall pt : Point GoFloat.float64,
        pt ∈ decoded_floats a ->
        exists p : TelemetryPoint.t,
          IEC104Client.Telemetry (World.c (world_of (ASDUHandler a w)))
            !! GoInt.of_uint pt.1.1 = Some p /\
          DataPoint.Address (TelemetryPoint.DataPoint p) = GoInt.of_uint pt.1.1) /\
     (forall pt : Point bool,
        pt ∈ decoded_bools a ->
        exists p : TeleindPoint.t,
          IEC104Client.Teleindication (World.c (world_of (ASDUHandler a w)))
            !! GoInt.of_uint pt.1.1 = Some p /\
          DataPoint.Address (TeleindPoint.DataPoint p) = GoInt.of_uint pt.1.1)) /\
  (forall (logger : LoggerRef) (row col : Z) (v : bool) (w : World.t),
     let index := dialog_index row col in
     let w' := world_of (showTelecontrolDialog_Send logger row col v w) in
     exists r w1,
       SendTelecontrol index v w = Return r w1 /\
       IEC104Client.Telecontrol (World.c w1) = IEC104Client.Telecontrol (World.c w) /\
       IEC104Client.Telecontrol (World.c w') =
         match r with
         | None => <[index := TelecontrolPoint.mk DataPoint.zero v]>
                     (IEC104Client.Telecontrol (World.c w))
         | Some _ => IEC104Client.Telecontrol (World.c w)
         end) /\
  (forall (logger : LoggerRef) (row col : Z) (v : GoFloat.float64) (w : World.t),
     let index := dialog_index row col in
     let w' := world_of (showTeleregulationDialog_Send logger row col v w) in
     exists r w1,
       SendTelemetry index v w = Return r w1 /\
       IEC104Client.Teleregulation (World.c w1) =
         IEC104Client.Teleregulation (World.c w) /\
       IEC104Client.Teleregulation (World.c w') =
         match r with
         | None => <[index := TeleregulationPoint.mk DataPoint.zero v]>
                     (IEC104Client.Teleregulation (World.c w))
         | Some _ => IEC104Client.Teleregulation (World.c w)
         end) /\
  (let w := connected_world quiet_env in
   let w' := world_of (showTelecontrolDialog_Send 0%nat 1 6 true w) in
   dialog_index 1 6 = 5 /\
   SendTelecontrol 5 true w =
     Return None
       (World.set_calls 2%nat
          (World.set_trace
             (World.trace w ++
                [EvLock; EvTransport (select_phase 0%nat 24582 true) None;
                 EvSleep (time.Millisecond * 200);
                 EvTransport (execute_phase 0%nat 24582 true) None; EvUnlock])
             w)) /\
   IEC104Client.Telecontrol (World.c w') !! 5 =
     Some (TelecontrolPoint.mk DataPoint.zero true) /\
   IEC104Client.Telecontrol (World.c w') !! 24582 = None).
Proof.
  split; [|split; [|split; [|split; [|split; [|split]]]]].
  - intros a w k p. rewrite ASDUHandler_Telemetry. unfold store_floats.
    intros H. apply store_all_lookup in H as [?|(pt & Hin & <- & <-)];
      [by left|].
    destruct (_ =? _); [|by apply elem_of_nil in Hin].
    right. by exists pt.
  - intros a w k p. rewrite ASDUHandler_Teleindication. unfold store_bools.
    intros H. apply store_all_lookup in H as [?|(pt & Hin & <- & <-)];
      [by left|].
    destruct (_ =? _); [|by apply elem_of_nil in Hin].
    right. by exists pt.
  - intros ioa H. by apply of_uint_id.
  - intros a w Hca. split; intros pt Hin.
    + rewrite ASDUHandler_Telemetry, Hca, Z.eqb_refl. unfold store_floats.
      destruct (store_all_present point_key
                  (fun p => telemetryPoint p.1.1 p.1.2 p.2) pt
                  (decoded_floats a) (IEC104Client.Telemetry (World.c w)) Hin)
        as (y & _ & Hk & Hl).
      eexists. split; [exact Hl|]. exact Hk.
    + rewrite ASDUHandler_Teleindication, Hca, Z.eqb_refl. unfold store_bools.
      destruct (store_all_present point_key
                  (fun p => teleindPoint p.1.1 p.1.2 p.2) pt
                  (decoded_bools a) (IEC104Client.Teleindication (World.c w)) Hin)
        as (y & _ & Hk & Hl).
      eexists. split; [exact Hl|]. exact Hk.
  - intros logger row col v w index w'. subst index w'.
    destruct (showTelecontrolDialog_Send_table logger row col v w)
      as (r & w1 & Hr & Hc).
    destruct (SendTelecontrol_returns (dialog_index row col) v w)
      as (r' & w1' & Hr' & Hc').
    rewrite Hr in Hr'. injection Hr' as <- <-.
    exists r, w1. split; [done|]. rewrite Hc, Hc'. split; [done|].
    destruct r; [done|]. by destruct (World.c w).
  - intros logger row col v w index w'. subst index w'.
    destruct (showTeleregulationDialog_Send_table logger row col v w)
      as (r & w1 & Hr & Hc).
    destruct (SendTelemetry_returns (dialog_index row col) v w)
      as (r' & w1' & Hr' & Hc').
    rewrite Hr in Hr'. injection Hr' as <- <-.
    exists r, w1. split; [done|]. rewrite Hc, Hc'. split; [done|].
    destruct r; [done|]. by destruct (World.c w).
  - cbv zeta. split; [by vm_compute|]. split; [by vm_compute|].
    split; by vm_compute.
Qed.

(* ===================================================================== *)
(** ** The interrogation scheduler *)
(* ===================================================================== *)

(** While the connected flag is down, [allCall] does nothing at all. *)
Lemma allCall_disconnected (w : World.t) :
  IEC104Client.Connected (World.c w) = false -> allCall w = Return tt w.
Proof. intros H. unfold allCall, bind, getc. by rewrite H. Qed.

(** On a connected client [allCall] makes exactly one call into the
    transport, the general interrogation of the configured station; a
    refusal is logged; the client is left as it was either way. *)
Lemma allCall_connected (w : World.t) (s : cs104.ClientRef) (l : LoggerRef) :
  IEC104Client.Connected (World.c w) = true ->
  IEC104Client.client (World.c w) = Some s ->
  IEC104Client.Logger (World.c w) = Some l ->
  allCall w =
    Return tt
      (World.set_trace
         (World.trace w ++
            allCall_events s (IEC104Client.commonAddr (World.c w)) l
              (Env.Send (World.env w) (World.calls w)
                 (interrogation s (IEC104Client.commonAddr (World.c w)))))
         (World.set_calls (S (World.calls w)) w)).
Proof.
  destruct w as [c ss e n tr]; destruct c. simpl. intros -> -> ->.
  unfold allCall_events, interrogation. run_go.
  destruct (Env.Send e n _); simpl; [|done].
  unfold Logger_Infof, Logger_log, bind, getc, emit. simpl.
  by rewrite <- app_assoc.
Qed.

Lemma select_TimerC (w : World.t) : select TimerC w = Return TimerC w.
Proof. unfold select, bind, getc, ret. by destruct (IEC104Client.closer _). Qed.

(** One interrogation per firing of the timer while connected, whether or
    not the transport refuses some of them; the loop is still waiting. *)
Lemma run_loop_connected (callInterval : time.Duration) (n : nat) (w : World.t)
  (s : cs104.ClientRef) (l : LoggerRef) :
  IEC104Client.Connected (World.c w) = true ->
  IEC104Client.client (World.c w) = Some s ->
  IEC104Client.Logger (World.c w) = Some l ->
  run_loop callInterval (timer_rounds n) w =
    Return AtSelect
      (World.set_trace
         (World.trace w ++
            ticks_connected callInterval s (IEC104Client.commonAddr (World.c w))
              l (World.env w) (World.calls w) n)
         (World.set_calls (World.calls w + n)%nat w)).
Proof.
  revert w. induction n as [|n IH]; intros w Hconn Hcli Hlog.
  - simpl. unfold ret. destruct w. simpl.
    by rewrite app_nil_r, Nat.add_0_r.
  - simpl. unfold bind at 1. simpl. unfold bind at 1. rewrite select_TimerC.
    unfold bind at 1. unfold emit at 1.
    unfold bind at 1.
    rewrite (allCall_connected _ s l) by (by destruct w).
    unfold bind at 1. unfold emit at 1.
    fold (timer_rounds n). rewrite IH by (by destruct w).
    destruct w as [c ss e k tr]. simpl. unfold World.set_trace, World.set_calls.
    simpl. unfold allCall_events.
    replace (k + S n)%nat with (S (k + n)) by lia.
    rewrite <- ?app_assoc. simpl. by rewrite <- ?app_assoc.
Qed.

(** No interrogation at all while disconnected, and none is kept for
    later: the calls counter stands still. *)
Lemma run_loop_disconnected (callInterval : time.Duration) (n : nat)
  (w : World.t) :
  IEC104Client.Connected (World.c w) = false ->
  run_loop callInterval (timer_rounds n) w =
    Return AtSelect
      (World.set_trace
         (World.trace w ++ ticks_disconnected callInterval n) w).
Proof.
  revert w. induction n as [|n IH]; intros w Hconn.
  - simpl. unfold ret. destruct w. simpl. by rewrite app_nil_r.
  - simpl. unfold bind at 1. simpl. unfold bind at 1. rewrite select_TimerC.
    unfold bind at 1. unfold emit at 1.
    unfold bind at 1.
    rewrite allCall_disconnected by (by destruct w).
    unfold bind at 1. unfold emit at 1.
    fold (timer_rounds n). rewrite IH by (by destruct w).
    destruct w as [c ss e k tr]. simpl. unfold World.set_trace.
    simpl. by rewrite <- !app_assoc.
Qed.

(** Once the stop channel is closed and the [select] takes its case, the
    loop is left for good: whatever the schedule holds after that round
    has no effect. *)
Lemma run_loop_stops (callInterval : time.Duration) (rest : list Round)
  (w : World.t) :
  IEC104Client.closer (World.c w) = true ->
  run_loop callInterval (([], CloserC) :: rest) w =
    Return Exited (World.set_trace (World.trace w ++ [EvCloserFired]) w).
Proof.
  intros H. simpl. unfold select, bind, getc, ret, emit. by rewrite H.
Qed.

(** [run] opens with the sleep of five seconds, then the first [allCall],
    then arms the timer with its argument. *)
Lemma run_opening (callInterval : time.Duration) (w : World.t) :
  IEC104Client.Connected (World.c w) = false ->
  run callInterval [] [] w =
    Return AtSelect
      (World.set_trace
         (World.trace w ++ [EvSleep (time.Second * 5); EvTimerNew callInterval])
         w).
Proof.
  intros H. unfold run, Sleep. unfold bind at 1. unfold emit at 1.
  simpl execs. unfold bind at 1. unfold ret at 1. unfold bind at 1.
  rewrite allCall_disconnected by (by destruct w).
  unfold defer_timer_Stop, bind, emit, ret. simpl. destruct w. simpl.
  by rewrite <- app_assoc.
Qed.

(** The interval the constructor hands to the scheduler is the default of
    the configuration. *)
Lemma scheduler_interval_default (host : string) (port commonAddr : Z) :
  snd (NewIEC104Client host port commonAddr) =
  [go_run (Config.InterrogationInterval NewConfig * time.Second)].
Proof. reflexivity. Qed.

(** C6.  The scheduler of a client built for a configuration whose
    interrogation interval is 30 seconds: the constructor takes host, port
    and common address only and starts [run] with 15 seconds, whatever the
    configuration says.  On the connected client the scheduler sleeps five
    seconds, interrogates once, arms its timer with 15 seconds, and on each
    firing interrogates once and re-arms it with 15 seconds. *)
Theorem scheduler_interval_not_configured :
  let started :=
    NewIEC104Client (Config.IPAddress config_30s) (Config.Port config_30s)
      (Config.CommonAddress config_30s) in
  let w := connected_world quiet_env in
  let ask := EvTransport (interrogation 0%nat 1) None in
  (forall (host : string) (port commonAddr : Z),
     snd (NewIEC104Client host port commonAddr) = [go_run (time.Second * 15)]) /\
  snd started = [go_run 15000000000] /\
  Config.InterrogationInterval config_30s * time.Second = 30000000000 /\
  World.c (initial_world quiet_env "127.0.0.1" 2404 1) = fst started /\
  match snd started with
  | [g] =>
      exists w' : World.t,
        spawn g [] (timer_rounds 2) w = Return AtSelect w' /\
        events_since w w' =
          [EvSleep 5000000000; ask; EvTimerNew 15000000000;
           EvTimerFired; ask; EvTimerReset 15000000000;
           EvTimerFired; ask; EvTimerReset 15000000000]
  | _ => False
  end.
Proof.
  cbv zeta. split; [done|]. split; [done|]. split; [done|]. split; [done|].
  simpl snd. cbv iota. eexists. split; by vm_compute.
Qed.

(** The two failure paths of a telecontrol command, on a transport that
    refuses the first, respectively the second, call: after a refused
    select-phase message nothing more is sent. *)
Example SendTelecontrol_select_refused :
  let w := connected_world (faulty_env [0%nat]) in
  let refused := Some (errorString "use of closed connection") in
  exists w' : World.t,
    SendTelecontrol 5 true w =
      Return (Some (errorString
                "send Select Command error: use of closed connection")) w' /\
    events_since w w' =
      [EvLock; EvTransport (select_phase 0%nat 24582 true) refused; EvUnlock].
Proof. cbv zeta. eexists. split; by vm_compute. Qed.

Example SendTelecontrol_execute_refused :
  let w := connected_world (faulty_env [1%nat]) in
  let refused := Some (errorString "use of closed connection") in
  exists w' : World.t,
    SendTelecontrol 5 true w =
      Return (Some (errorString
                "send Telecontrol Command error: use of closed connection")) w' /\
    events_since w w' =
      [EvLock; EvTransport (select_phase 0%nat 24582 true) None;
       EvSleep 200000000;
       EvTransport (execute_phase 0%nat 24582 true) refused; EvUnlock].
Proof. cbv zeta. eexists. split; by vm_compute. Qed.

(** A scheduler whose second interrogation is refused: the refusal is
    logged and the third one goes out as usual; the connection is then
    lost and the next firing sends nothing; the operator closes the client
    and the scheduler leaves, stopping its timer. *)
Example scheduler_run :
  let w := connected_world (faulty_env [1%nat]) in
  let refused := errorString "use of closed connection" in
  let ask := EvTransport (interrogation 0%nat 1) in
  exists w' : World.t,
    run (time.Second * 15) []
      [([], TimerC); ([], TimerC); ([OpConnectionLost 0%nat], TimerC);
       ([OpClose], CloserC); ([], TimerC)] w = Return Exited w' /\
    events_since w w' =
      [EvSleep 5000000000; ask None; EvTimerNew 15000000000;
       EvTimerFired; ask (Some refused);
       EvLog 0%nat LevelInfo "104 interrogation error = %v" [AErr refused];
       EvTimerReset 15000000000;
       EvTimerFired; ask None; EvTimerReset 15000000000;
       EvConnectionState 1%nat false;
       EvLog 0%nat LevelInfo "Disconnected from server: %s:%d"
         [AStr "127.0.0.1"; AInt 2404];
       EvTimerFired; EvTimerReset 15000000000;
       EvCloserFired; EvTimerStop].
Proof. cbv zeta. eexists. split; by vm_compute. Qed.
